(** * Lexical synthesis of provider responses (backend/services/synthesisService.js)

    A shallow embedding of the synthesis service of the aggregator backend,
    with the JavaScript built-ins it relies on.

    - A JavaScript string is a [string]: one [ascii] per UTF-16 code unit,
      for the strings whose code units are below 256 (U+0000 to U+00FF).
      On these [toLowerCase], [trim] and the regular expression class [\s]
      are as the language defines them, code unit by code unit; so is
      [toUpperCase], but for U+00B5, U+00DF and U+00FF, whose upper-case
      forms are not one code unit below 256 and which no name of a
      provider holds.
    - A JavaScript number is an IEEE 754 binary64 value: [spec_float] with
      precision 53 and maximal exponent 1024, with the operations of the
      standard library's executable specification.
    - A [Set] is the list of its elements in insertion order.
    - The object handed to [synthesizeResponses] is the list of its entries
      in the order [Object.entries] enumerates them. *)

From Stdlib Require Import Bool Arith ZArith List Ascii String Lia.
From Stdlib Require Import Permutation DecimalString SpecFloat.
Import ListNotations.

Open Scope list_scope.
Open Scope string_scope.

(** ** Numbers *)

Module Num.

Definition prec : Z := 53.
Definition emax : Z := 1024.

Definition number := spec_float.

(** An integer as a number (exact below 2^53). *)
Definition ofZ (z : Z) : number := binary_normalize prec emax z 0 false.
Definition ofNat (n : nat) : number := ofZ (Z.of_nat n).

Definition NaN : number := S754_nan.

Definition add : number -> number -> number := SFadd prec emax.
Definition mul : number -> number -> number := SFmul prec emax.
Definition div : number -> number -> number := SFdiv prec emax.

(** [x > y], [x >= y], [x < y] and [x == y] of JavaScript: false when
    either is NaN. *)
Definition gt (x y : number) : bool := SFltb y x.
Definition ge (x y : number) : bool := SFleb y x.
Definition lt (x y : number) : bool := SFltb x y.
Definition eq (x y : number) : bool := SFeqb x y.

(** The literals [0.7], [0.6] and [0.3]: the doubles nearest to the decimals. *)
Definition lit_0_7 : number := S754_finite false 6305039478318694 (-53).
Definition lit_0_6 : number := S754_finite false 5404319552844595 (-53).
Definition lit_0_3 : number := S754_finite false 5404319552844595 (-54).

(** [Math.round]: the nearest integer, halves towards +infinity; NaN,
    infinities and zeros are returned as they are, and a value in
    [-0.5, 0) gives -0. *)
Definition Math_round (x : number) : number :=
  match x with
  | S754_finite s m e =>
      if (0 <=? e)%Z then x
      else
        let sm := if s then Z.neg m else Z.pos m in
        let z := Z.div (2 * sm + 2 ^ (- e)) (2 ^ (1 - e)) in
        if (z =? 0)%Z then S754_zero s else ofZ z
  | _ => x
  end.

(** The integer a number denotes, when it is finite and integral. *)
Definition toInteger (x : number) : option Z :=
  match x with
  | S754_zero _ => Some 0%Z
  | S754_finite s m e =>
      let sm := if s then Z.neg m else Z.pos m in
      if (0 <=? e)%Z then Some (sm * 2 ^ e)%Z
      else if (Z.pos m mod 2 ^ (- e) =? 0)%Z then Some (sm / 2 ^ (- e))%Z
      else None
  | _ => None
  end.

(** [String(x)] as a template literal prints it, for the values
    [Math.round] returns: NaN, the infinities and integers (in plain
    decimal, which JavaScript uses below 10^21).  A finite number that is
    not an integer is never printed by this service. *)
Definition toString (x : number) : string :=
  match x with
  | S754_nan => "NaN"
  | S754_infinity false => "Infinity"
  | S754_infinity true => "-Infinity"
  | _ => match toInteger x with
         | Some z => NilZero.string_of_int (Z.to_int z)
         | None => EmptyString
         end
  end.

End Num.

(** ** Strings *)

Module Str.

Definition newline : string := String (ascii_of_nat 10) EmptyString.
Definition dquote : string := String (ascii_of_nat 34) EmptyString.
(** The bullet U+2022 is above the range; it is only ever written to the
    answer, never inspected, and stands here as the three bytes of its
    UTF-8 encoding. *)
Definition bullet : string :=
  String (ascii_of_nat 226) (String (ascii_of_nat 128) (String (ascii_of_nat 162) EmptyString)).

(** The class [\s], also what [trim] strips, below 256: tab, line feed,
    vertical tab, form feed, carriage return, space and the no-break space
    U+00A0. *)
Definition isSpace (c : ascii) : bool :=
  let n := nat_of_ascii c in
  (((9 <=? n) && (n <=? 13)) || (n =? 32) || (n =? 160))%nat.

(** The class [[.!?]]. *)
Definition isSentenceEnd (c : ascii) : bool :=
  let n := nat_of_ascii c in ((n =? 46) || (n =? 33) || (n =? 63))%nat.

(** [toLowerCase] of one code unit below 256: the letters A to Z and the
    letters U+00C0 to U+00DE, without the sign U+00D7, move up by 32. *)
Definition lowerChar (c : ascii) : ascii :=
  let n := nat_of_ascii c in
  if (((65 <=? n) && (n <=? 90))
      || ((192 <=? n) && (n <=? 222) && negb (n =? 215)))%nat
  then ascii_of_nat (n + 32) else c.

(** [toUpperCase] of one code unit below 256: the letters a to z and the
    letters U+00E0 to U+00FE, without the sign U+00F7, move down by 32. *)
Definition upperChar (c : ascii) : ascii :=
  let n := nat_of_ascii c in
  if (((97 <=? n) && (n <=? 122))
      || ((224 <=? n) && (n <=? 254) && negb (n =? 247)))%nat
  then ascii_of_nat (n - 32) else c.

Fixpoint toLowerCase (s : string) : string :=
  match s with
  | EmptyString => EmptyString
  | String c r => String (lowerChar c) (toLowerCase r)
  end.

(** [s.split(/C+/)] for a character class [C]: the pieces between the
    maximal runs of separators, with an empty piece before a leading run
    and after a trailing one; the empty string splits into one empty
    piece.  [inrun] tells that the previous code unit was a separator. *)
Fixpoint splitRuns (sep : ascii -> bool) (inrun : bool) (s : string) : list string :=
  match s with
  | EmptyString => [EmptyString]
  | String c r =>
      if sep c then
        if inrun then splitRuns sep true r
        else EmptyString :: splitRuns sep true r
      else
        match splitRuns sep false r with
        | piece :: more => String c piece :: more
        | [] => [String c EmptyString]
        end
  end.

Definition split (sep : ascii -> bool) (s : string) : list string :=
  splitRuns sep false s.

Fixpoint trimStart (s : string) : string :=
  match s with
  | EmptyString => EmptyString
  | String c r => if isSpace c then trimStart r else s
  end.

Fixpoint trimEnd (s : string) : string :=
  match s with
  | EmptyString => EmptyString
  | String c r =>
      match trimEnd r with
      | EmptyString => if isSpace c then EmptyString else String c EmptyString
      | r' => String c r'
      end
  end.

Definition trim (s : string) : string := trimEnd (trimStart s).

(** [hay.includes(needle)]. *)
Fixpoint includes (hay needle : string) : bool :=
  prefix needle hay ||
  match hay with
  | EmptyString => false
  | String _ r => includes r needle
  end.

(** [parts.join(sep)]. *)
Fixpoint join (sep : string) (parts : list string) : string :=
  match parts with
  | [] => EmptyString
  | [p] => p
  | p :: rest => p ++ sep ++ join sep rest
  end.

(** [s.charAt(0).toUpperCase() + s.slice(1)]. *)
Definition capitalize (s : string) : string :=
  match s with
  | EmptyString => EmptyString
  | String c r => String (upperChar c) r
  end.

Definition ofNat (n : nat) : string := NilZero.string_of_uint (Nat.to_uint n).

End Str.

(** ** Sets of strings, in insertion order *)

Module JSSet.

Definition has (s : list string) (x : string) : bool := existsb (String.eqb x) s.

Definition add (s : list string) (x : string) : list string :=
  if has s x then s else (s ++ [x])%list.

(** [new Set(items)]. *)
Definition make (items : list string) : list string := fold_left add items [].

Definition size (s : list string) : nat := List.length s.

End JSSet.

(** ** The similarity analyzer *)

(** The words of a text: [text.toLowerCase().split(/\s+/).filter(word => word.length > 2)]
    collected in a [Set]. *)
Definition wordSet (text : string) : list string :=
  JSSet.make
    (filter (fun word => (2 <? String.length word)%nat)
            (Str.split Str.isSpace (Str.toLowerCase text))).

Definition intersection (words1 words2 : list string) : list string :=
  JSSet.make (filter (fun x => JSSet.has words2 x) words1).

Definition union (words1 words2 : list string) : list string :=
  JSSet.make (words1 ++ words2)%list.

(** A string is falsy exactly when it is empty. *)
Definition falsy (s : string) : bool :=
  match s with EmptyString => true | _ => false end.

Definition calculateTextSimilarity (text1 text2 : string) : Num.number :=
  if falsy text1 || falsy text2 then Num.ofZ 0
  else
    let words1 := wordSet text1 in
    let words2 := wordSet text2 in
    Num.div (Num.ofNat (JSSet.size (intersection words1 words2)))
            (Num.ofNat (JSSet.size (union words1 words2))).

(** ** Sentences and the per-tier helpers *)

(** [text.split(/[.!?]+/).filter(s => s.trim().length > 10)]. *)
Definition splitIntoSentences (text : string) : list string :=
  filter (fun s => (10 <? String.length (Str.trim s))%nat)
         (Str.split Str.isSentenceEnd text).

(** An element of [validResponses]: [{ source, text, length }]. *)
Module Valid.
Record t : Type := make { source : string; text : string; length : nat }.
End Valid.

Definition indicators : list string :=
  ["recommend"; "suggest"; "important"; "key"; "should"; "best"; "main";
   "first"; "consider"].

Definition extractKeyPoints (text : string) : list string :=
  let sentences := splitIntoSentences text in
  let keyPoints :=
    flat_map (fun sentence =>
      let hasIndicator :=
        existsb (fun indicator => Str.includes (Str.toLowerCase sentence) indicator)
                indicators in
      if hasIndicator && (30 <? String.length sentence)%nat
                      && (String.length sentence <? 200)%nat
      then [Str.trim sentence] else []) sentences in
  firstn 3 keyPoints.

(** [!baseSentences.some(b => calculateTextSimilarity(sentence, b) > 0.7)]. *)
Definition isUnique (baseSentences : list string) (sentence : string) : bool :=
  negb (existsb (fun baseSentence =>
                   Num.gt (calculateTextSimilarity sentence baseSentence) Num.lit_0_7)
                baseSentences).

(** What the inner loop of [extractUniqueDetails] pushes for one sentence. *)
Definition detailOf (baseSentences : list string) (source sentence : string) : list string :=
  if isUnique baseSentences sentence
     && (20 <? String.length sentence)%nat
     && (String.length sentence <? 150)%nat
  then [source ++ ": " ++ Str.trim sentence] else [].

(** What the outer loop pushes for one response. *)
Definition detailsOf (baseResponse response : Valid.t) : list string :=
  if String.eqb (Valid.source response) (Valid.source baseResponse) then []
  else flat_map (detailOf (splitIntoSentences (Valid.text baseResponse))
                          (Valid.source response))
                (splitIntoSentences (Valid.text response)).

Definition extractUniqueDetails (baseResponse : Valid.t) (allResponses : list Valid.t)
  : list string :=
  firstn 3 (flat_map (detailsOf baseResponse) allResponses).

(** A sentence with its source, as [findCommonThemes] pairs them. *)
Definition allSentencesOf (responses : list Valid.t) : list (string * string) :=
  flat_map (fun r => map (fun s => (s, Valid.source r))
                         (splitIntoSentences (Valid.text r))) responses.

(** One turn of the loop of [findCommonThemes]; the state is [themes] and
    [processedSentences]. *)
Definition themeStep (allSentences : list (string * string))
    (st : list string * list string) (sentence : string * string)
  : list string * list string :=
  let '(themes, processedSentences) := st in
  if JSSet.has processedSentences (fst sentence) then st
  else
    let similar :=
      filter (fun other =>
                negb (String.eqb (snd other) (snd sentence))
                && Num.gt (calculateTextSimilarity (fst sentence) (fst other))
                          Num.lit_0_6) allSentences in
    if (0 <? List.length similar)%nat
    then ((themes ++ [Str.trim (fst sentence)])%list,
          fold_left JSSet.add (map fst similar)
                    (JSSet.add processedSentences (fst sentence)))
    else st.

Definition findCommonThemes (responses : list Valid.t) : list string :=
  let allSentences := allSentencesOf responses in
  firstn 4 (fst (fold_left (themeStep allSentences) allSentences ([], []))).

Definition contrastPairs : list (string * string) :=
  [("yes", "no"); ("should", "shouldn't"); ("good", "bad");
   ("recommend", "avoid"); ("best", "worst"); ("increase", "decrease");
   ("positive", "negative"); ("agree", "disagree"); ("support", "oppose")].

Definition sourcesWith (responses : list Valid.t) (word : string) : list string :=
  map Valid.source
      (filter (fun r => Str.includes (Str.toLowerCase (Valid.text r)) word) responses).

Definition findDisagreements (responses : list Valid.t) : list string :=
  let disagreements :=
    flat_map (fun pair =>
      let '(word1, word2) := pair in
      let hasWord1Sources := sourcesWith responses word1 in
      let hasWord2Sources := sourcesWith responses word2 in
      if (0 <? List.length hasWord1Sources)%nat && (0 <? List.length hasWord2Sources)%nat
      then [Str.join ", " hasWord1Sources ++ " lean towards " ++ Str.dquote ++ word1
            ++ Str.dquote ++ " while " ++ Str.join ", " hasWord2Sources ++ " suggest "
            ++ Str.dquote ++ word2 ++ Str.dquote]
      else []) contrastPairs in
  firstn 2 disagreements.

(** ** The strategy selector *)

(** What an entry of [individualResponses] holds: the text an adapter
    returned, or the object the server builds for a rejected or timed-out
    call, [{ error, message, source }]. *)
Inductive response : Type :=
| Text (text : string)
| Failure (error : bool) (message source : string).

(** [response.error], as a condition: undefined on a string. *)
Definition errorOf (r : response) : bool :=
  match r with
  | Text _ => false
  | Failure error _ _ => error
  end.

(** [typeof response === 'string'], with the string when it holds. *)
Definition asString (r : response) : option string :=
  match r with
  | Text text => Some text
  | Failure _ _ _ => None
  end.

Record SynthesisResult : Type := {
  confidence : string;
  confidenceScore : Num.number;
  synthesizedAnswer : string;
  approach : string;
  sourcesUsed : list string;
  reasoning : string
}.

(** What the first loop pushes for one entry. *)
Definition validEntry (entry : string * response) : list Valid.t :=
  let '(source, response) := entry in
  match asString response with
  | Some text =>
      if negb (errorOf response)
      then [Valid.make (Str.capitalize source) text (String.length text)]
      else []
  | None => []
  end.

Definition validResponsesOf (individualResponses : list (string * response))
  : list Valid.t :=
  flat_map validEntry individualResponses.

(** The similarities the two nested loops push, for [i < j]. *)
Fixpoint similaritiesOf (validResponses : list Valid.t) : list Num.number :=
  match validResponses with
  | [] => []
  | ri :: rest =>
      (map (fun rj => calculateTextSimilarity (Valid.text ri) (Valid.text rj)) rest
       ++ similaritiesOf rest)%list
  end.

(** [similarities.reduce((a, b) => a + b, 0) / similarities.length]. *)
Definition average (similarities : list Num.number) : Num.number :=
  Num.div (fold_left Num.add similarities (Num.ofZ 0))
          (Num.ofNat (List.length similarities)).

Definition avgSimilarityOf (validResponses : list Valid.t) : Num.number :=
  average (similaritiesOf validResponses).

(** [validResponses.reduce((longest, current) =>
      current.length > longest.length ? current : longest)]
    on an array that starts with [first]. *)
Definition longestOf (first : Valid.t) (rest : list Valid.t) : Valid.t :=
  fold_left (fun longest current =>
               if (Valid.length longest <? Valid.length current)%nat
               then current else longest) rest first.

Definition bulletLine (item : string) : string :=
  Str.bullet ++ " " ++ item ++ Str.newline.

Definition percent (avgSimilarity : Num.number) : Num.number :=
  Num.Math_round (Num.mul avgSimilarity (Num.ofZ 100)).

Definition consensusText (baseResponse : Valid.t) (uniqueDetails : list string) : string :=
  Valid.text baseResponse ++
  (if (0 <? List.length uniqueDetails)%nat
   then Str.newline ++ Str.newline ++ "**Additional insights:**" ++ Str.newline
        ++ Str.join Str.newline (map (fun detail => Str.bullet ++ " " ++ detail) uniqueDetails)
   else EmptyString).

Definition balancedText (commonThemes disagreements : list string) : string :=
  "**Based on multiple AI perspectives:**" ++ Str.newline ++ Str.newline ++
  (if (0 <? List.length commonThemes)%nat
   then "**Common insights:**" ++ Str.newline ++ String.concat EmptyString (map bulletLine commonThemes)
   else EmptyString) ++
  (if (0 <? List.length disagreements)%nat
   then Str.newline ++ "**Different perspectives:**" ++ Str.newline
        ++ String.concat EmptyString (map bulletLine disagreements)
   else EmptyString).

(** The section the comparative branch writes for one response. *)
Definition approachSection (response : Valid.t) : string :=
  let keyPoints := extractKeyPoints (Valid.text response) in
  "**" ++ Valid.source response ++ " approach:**" ++ Str.newline ++
  (if (0 <? List.length keyPoints)%nat
   then String.concat EmptyString (map bulletLine keyPoints)
   else match splitIntoSentences (Valid.text response) with
        | firstSentence :: _ =>
            if falsy firstSentence then EmptyString else bulletLine firstSentence
        | [] => EmptyString
        end) ++
  Str.newline.

Definition comparativeText (validResponses : list Valid.t) : string :=
  "**Different AI models suggest distinct approaches:**" ++ Str.newline ++ Str.newline ++
  String.concat EmptyString (map approachSection validResponses) ++
  "**Recommendation:** Consider combining elements from multiple approaches based on your specific context.".

Definition synthesizeResponses (individualResponses : list (string * response))
  : SynthesisResult :=
  let validResponses := validResponsesOf individualResponses in
  match validResponses with
  | [] =>
      {| confidence := "No Valid Responses";
         confidenceScore := Num.ofZ 0;
         synthesizedAnswer := "All AI services failed to provide valid responses.";
         approach := "error";
         sourcesUsed := [];
         reasoning := "No successful responses received" |}
  | [only] =>
      {| confidence := "Single Source";
         confidenceScore := Num.ofZ 50;
         synthesizedAnswer := Valid.text only;
         approach := "single";
         sourcesUsed := [Valid.source only];
         reasoning := "Only one AI service provided a valid response" |}
  | first :: rest =>
      let avgSimilarity := avgSimilarityOf validResponses in
      if Num.ge avgSimilarity Num.lit_0_7 then
        let baseResponse := longestOf first rest in
        let uniqueDetails := extractUniqueDetails baseResponse validResponses in
        {| confidence := "High Confidence";
           confidenceScore := percent avgSimilarity;
           synthesizedAnswer := consensusText baseResponse uniqueDetails;
           approach := "consensus";
           sourcesUsed := map Valid.source validResponses;
           reasoning := Str.ofNat (List.length validResponses)
                        ++ " models provided similar answers ("
                        ++ Num.toString (percent avgSimilarity) ++ "% agreement)" |}
      else if Num.ge avgSimilarity Num.lit_0_3 then
        let commonThemes := findCommonThemes validResponses in
        let disagreements := findDisagreements validResponses in
        {| confidence := "Multiple Perspectives";
           confidenceScore := percent avgSimilarity;
           synthesizedAnswer := balancedText commonThemes disagreements;
           approach := "balanced";
           sourcesUsed := map Valid.source validResponses;
           reasoning := "Models showed " ++ Num.toString (percent avgSimilarity)
                        ++ "% agreement with notable differences" |}
      else
        {| confidence := "Diverse Approaches";
           confidenceScore := percent avgSimilarity;
           synthesizedAnswer := comparativeText validResponses;
           approach := "comparative";
           sourcesUsed := map Valid.source validResponses;
           reasoning := "Models provided significantly different approaches ("
                        ++ Num.toString (percent avgSimilarity) ++ "% agreement)" |}
  end.

(** ** The fallback texts of the adapters

    What the adapters of the original server return, as an ordinary
    string, when a key is missing (the [getMock...Response] functions of
    the three services), without their artificial delay. *)
Module Mock.

Definition getMockOpenAIResponse (prompt : string) : string :=
  "Mock OpenAI (GPT-3.5) response: This is a simulated response to " ++ Str.dquote
  ++ substring 0 30 prompt ++ "..." ++ Str.dquote
  ++ " - In a real implementation, GPT would provide detailed analysis and suggestions based on its training data.".

Definition getMockAnthropicResponse (prompt : string) : string :=
  "Mock Anthropic (Claude) response: This is a simulated response to " ++ Str.dquote
  ++ substring 0 30 prompt ++ "..." ++ Str.dquote
  ++ " - Claude would typically provide thoughtful analysis with attention to nuance, safety considerations, and helpful step-by-step guidance.".

Definition getMockGoogleResponse (prompt : string) : string :=
  "Mock Google AI (Gemini) response: This is a simulated response to " ++ Str.dquote
  ++ substring 0 30 prompt ++ "..." ++ Str.dquote
  ++ " - Gemini would typically provide comprehensive information with factual accuracy and structured formatting.".

End Mock.

(** ** Vocabulary of the statements *)

(** [typeof response === 'string']. *)
Definition isString (r : response) : bool :=
  match asString r with Some _ => true | None => false end.

(** The entries of the input that hold a string, in the order of the input. *)
Definition stringEntries (individualResponses : list (string * response))
  : list (string * response) :=
  filter (fun entry => isString (snd entry)) individualResponses.

(** The texts of the entries that hold a string, in the order of the input. *)
Definition stringTexts (individualResponses : list (string * response)) : list string :=
  flat_map (fun entry => match asString (snd entry) with
                         | Some text => [text]
                         | None => []
                         end) individualResponses.

(** The input of the original server when no API key is configured: every
    adapter answers with its fallback text. *)
Definition allMocks (prompt : string) : list (string * response) :=
  [("openai", Text (Mock.getMockOpenAIResponse prompt));
   ("anthropic", Text (Mock.getMockAnthropicResponse prompt));
   ("google", Text (Mock.getMockGoogleResponse prompt))].

(** Sample inputs. *)
Definition twoAgreeOneEmpty : list (string * response) :=
  [("openai", Text "alpha beta gamma");
   ("anthropic", Text "alpha beta gamma");
   ("google", Text EmptyString)].

Definition sevenOfTenBase : string :=
  "the quick brown fox jumps over lazy dogs-and-other-sleepy-animals".

Definition sevenOfTenOther : string :=
  "the quick brown fox jumps over lazy cat now".

(** Two texts with seven words in common out of ten: similarity 7/10. *)
Definition sevenOfTen : list (string * response) :=
  [("openai", Text sevenOfTenBase); ("google", Text sevenOfTenOther)].

(** Two texts with three words in common out of ten: similarity 3/10. *)
Definition threeOfTen : list (string * response) :=
  [("openai", Text "red green blue one two three");
   ("google", Text "red green blue four five six seven")].

(** Two texts without a common word. *)
Definition nothingShared : list (string * response) :=
  [("openai", Text "red green blue");
   ("google", Text "four five six seven")].

(** The text the consensus branch appends after the base text. *)
Definition insightsSuffix (uniqueDetails : list string) : string :=
  match uniqueDetails with
  | [] => EmptyString
  | _ => Str.newline ++ Str.newline ++ "**Additional insights:**" ++ Str.newline
         ++ Str.join Str.newline
                     (map (fun detail => Str.bullet ++ " " ++ detail) uniqueDetails)
  end.

(** The similarities as the specification words them, with every pair that
    has an empty text left out of the mean. *)
Module Spec.

Fixpoint similaritiesExcludingEmpty (validResponses : list Valid.t) : list Num.number :=
  match validResponses with
  | [] => []
  | ri :: rest =>
      (flat_map (fun rj =>
                   if falsy (Valid.text ri) || falsy (Valid.text rj) then []
                   else [calculateTextSimilarity (Valid.text ri) (Valid.text rj)]) rest
       ++ similaritiesExcludingEmpty rest)%list
  end.

End Spec.

(** ** The route of the original server (backend/server.js) *)

Module Server.

(** How one of the three raced calls settles: with the text of the adapter,
    or rejected, with [reason?.message] when there is one. *)
Inductive settled : Type :=
| Fulfilled (value : string)
| Rejected (message : option string).

(** [message || fallback]. *)
Definition messageOr (message : option string) (fallback : string) : string :=
  match message with
  | Some text => if falsy text then fallback else text
  | None => fallback
  end.

(** The entry the route builds for one settled call. *)
Definition entryOf (result : settled) (fallback source : string) : response :=
  match result with
  | Fulfilled value => Text value
  | Rejected message => Failure true (messageOr message fallback) source
  end.

Definition individualResponsesOf (results : settled * settled * settled)
  : list (string * response) :=
  let '(openai, anthropic, google) := results in
  [("openai", entryOf openai "OpenAI call failed" "OpenAI");
   ("anthropic", entryOf anthropic "Anthropic call failed" "Anthropic");
   ("google", entryOf google "Google AI call failed" "Google")].

Record Metadata : Type := {
  processingTimeMs : Z;
  timestamp : string;
  totalSources : nat;
  successfulSources : nat
}.

Record Aggregate : Type := {
  prompt : string;
  synthesis : SynthesisResult;
  individualResponses : list (string * response);
  metadata : Metadata
}.

Inductive body : Type :=
| ErrorBody (error : string)
| AggregateBody (aggregate : Aggregate).

Record reply : Type := { status : nat; json : body }.

(** The value of [req.body.prompt]: a JSON value, or [undefined] when the
    body has no such field. *)
Inductive value : Type :=
| JUndefined
| JNull
| JBool (b : bool)
| JNumber (n : Num.number)
| JString (text : string)
| JArray
| JObject.

(** [!prompt] is false. *)
Definition truthy (prompt : value) : bool :=
  match prompt with
  | JUndefined | JNull => false
  | JBool b => b
  | JNumber (S754_zero _) | JNumber S754_nan => false
  | JNumber _ => true
  | JString text => negb (falsy text)
  | JArray | JObject => true
  end.

(** The answer of the error handling middleware, to which the router hands
    an exception thrown by the handler outside its [try]: a rejection of
    the asynchronous handler, which Express passes on from version 5. *)
Definition internalServerError : reply :=
  {| status := 500; json := ErrorBody "Internal server error" |}.

(** [POST /api/aggregate].  [requestBody] is [req.body]: [None] when there
    is none, so that reading [prompt] from it throws, and the value of its
    field [prompt] otherwise; a prompt that is true and no string has no
    [trim] to call, which throws as well.  [results] is how the three calls
    settle once the prompt is accepted; the two last arguments are what the
    clock gives.  Inside the [try] nothing throws, the settled values being
    strings. *)
Definition aggregate (requestBody : option value)
    (results : settled * settled * settled)
    (processingTime : Z) (now : string) : reply :=
  match requestBody with
  | None => internalServerError
  | Some prompt =>
      if negb (truthy prompt) then
        {| status := 400; json := ErrorBody "Prompt is required and cannot be empty" |}
      else
        match prompt with
        | JString text =>
            if (String.length (Str.trim text) =? 0)%nat then
              {| status := 400;
                 json := ErrorBody "Prompt is required and cannot be empty" |}
            else if (2000 <? String.length text)%nat then
              {| status := 400;
                 json := ErrorBody "Prompt is too long. Maximum 2000 characters allowed." |}
            else
              let individualResponses := individualResponsesOf results in
              let synthesis := synthesizeResponses individualResponses in
              {| status := 200;
                 json := AggregateBody
                   {| prompt := text;
                      synthesis := synthesis;
                      individualResponses := individualResponses;
                      metadata :=
                        {| processingTimeMs := processingTime;
                           timestamp := now;
                           totalSources := List.length individualResponses;
                           successfulSources := List.length (sourcesUsed synthesis) |} |} |}
        | _ => internalServerError
        end
  end.

Definition isFulfilled (result : settled) : bool :=
  match result with Fulfilled _ => true | Rejected _ => false end.


End Server.

(** ** The LangChain services

    [backend/services/langchainService.js] and
    [backend/services/langchainSynthesisService.js], with the part of
    [backend/langchainServer.js] that lists the sources.  What the models
    and the synthesis chain answer is an input of the embedding. *)

Module LangChain.

Fixpoint lookup {A : Type} (key : string) (table : list (string * A)) : option A :=
  match table with
  | [] => None
  | (k, v) :: rest => if String.eqb key k then Some v else lookup key rest
  end.

Definition mockResponses : list (string * list (string * string)) :=
  [("openai",
    [("no_api_key", "OpenAI API key not configured. This is a mock response. To use real OpenAI responses, please add your API key to the .env file.");
     ("quota_exceeded", "OpenAI API quota exceeded. This is a mock response. The service would normally provide insights based on GPT-3.5-turbo's analysis.");
     ("auth_error", "OpenAI authentication failed. This is a mock response simulating GPT-3.5-turbo's typical analytical style.");
     ("general_error", "OpenAI service temporarily unavailable. This mock response represents what GPT-3.5-turbo might say.")]);
   ("anthropic",
    [("no_api_key", "Anthropic API key not configured. This is a mock response. To use real Claude responses, please add your API key to the .env file.");
     ("credit_error", "Anthropic API credit limit reached. This is a mock response. Claude would typically provide a thoughtful, nuanced perspective here.");
     ("auth_error", "Anthropic authentication failed. This mock response simulates Claude's characteristic thoroughness and clarity.");
     ("general_error", "Anthropic service temporarily unavailable. This represents Claude's typical structured approach.")]);
   ("google",
    [("no_api_key", "Google AI API key not configured. This is a mock response. To use real Gemini responses, please add your API key to the .env file.");
     ("auth_error", "Google AI authentication failed. This is a mock response. Gemini would normally offer comprehensive analysis here.");
     ("general_error", "Google AI service temporarily unavailable. This mock response represents Gemini's typical informative style.")])].

(** [mockResponses[service]?.[errorType] || `${service} service error - mock response provided.`],
    for the names the three query functions pass. *)
Definition getMockResponse (service errorType : string) : string :=
  let fallback := service ++ " service error - mock response provided." in
  match lookup service mockResponses with
  | Some byType =>
      match lookup errorType byType with
      | Some text => if falsy text then fallback else text
      | None => fallback
      end
  | None => fallback
  end.

(** What invoking a chain does: it answers with a string or throws an
    error with a message. *)
Inductive invocation : Type :=
| Responded (response : string)
| Threw (message : string).

Definition chain : Type := string -> invocation.

Definition queryOpenAI (openAIChain : option chain) (prompt : string) : string :=
  match openAIChain with
  | None => getMockResponse "openai" "no_api_key"
  | Some invoke =>
      match invoke prompt with
      | Responded response => response
      | Threw message =>
          if Str.includes message "insufficient_quota"
          then getMockResponse "openai" "quota_exceeded"
          else if Str.includes message "Incorrect API key"
          then getMockResponse "openai" "auth_error"
          else getMockResponse "openai" "general_error"
      end
  end.

Definition queryAnthropic (anthropicChain : option chain) (prompt : string) : string :=
  match anthropicChain with
  | None => getMockResponse "anthropic" "no_api_key"
  | Some invoke =>
      match invoke prompt with
      | Responded response => response
      | Threw message =>
          if Str.includes message "credit balance"
          then getMockResponse "anthropic" "credit_error"
          else if Str.includes message "Invalid API Key"
          then getMockResponse "anthropic" "auth_error"
          else getMockResponse "anthropic" "general_error"
      end
  end.

Definition queryGoogle (googleAIChain : option chain) (prompt : string) : string :=
  match googleAIChain with
  | None => getMockResponse "google" "no_api_key"
  | Some invoke =>
      match invoke prompt with
      | Responded response => response
      | Threw message =>
          if Str.includes message "API key not valid"
          then getMockResponse "google" "auth_error"
          else getMockResponse "google" "general_error"
      end
  end.

(** The object [queryAllModels] returns; [None] is [null]. *)
Record Responses : Type := {
  openai : option string;
  anthropic : option string;
  google : option string
}.

Record Chains : Type := {
  openAIChain : option chain;
  anthropicChain : option chain;
  googleAIChain : option chain
}.

(** What invoking the parallel chain does. *)
Inductive parallelInvocation : Type :=
| ParallelResults (parallelResults : Responses)
| ParallelThrew.

(** [x || null]. *)
Definition orNull (x : option string) : option string :=
  match x with
  | Some text => if falsy text then None else Some text
  | None => None
  end.

Definition isSome {A : Type} (x : option A) : bool :=
  match x with Some _ => true | None => false end.

(** The three individual calls of the [catch] branch. *)
Definition queryEach (chains : Chains) (prompt : string) : Responses :=
  {| openai := Some (queryOpenAI (openAIChain chains) prompt);
     anthropic := Some (queryAnthropic (anthropicChain chains) prompt);
     google := Some (queryGoogle (googleAIChain chains) prompt) |}.

(** [queryAllModels]; the parallel chain exists when at least one of the
    three chains does. *)
Definition queryAllModels (chains : Chains) (parallelChain : string -> parallelInvocation)
    (prompt : string) : Responses :=
  if isSome (openAIChain chains) || isSome (anthropicChain chains)
     || isSome (googleAIChain chains)
  then match parallelChain prompt with
       | ParallelResults parallelResults =>
           {| openai := orNull (openai parallelResults);
              anthropic := orNull (anthropic parallelResults);
              google := orNull (google parallelResults) |}
       | ParallelThrew => queryEach chains prompt
       end
  else queryEach chains prompt.

(** [Object.entries(responses)]. *)
Definition entries (responses : Responses) : list (string * option string) :=
  [("openai", openai responses); ("anthropic", anthropic responses);
   ("google", google responses)].

(** [response && !response.includes('mock response')]. *)
Definition isValid (response : option string) : bool :=
  match response with
  | Some text => negb (falsy text) && negb (Str.includes text "mock response")
  | None => false
  end.

(** The entries that pass the filter, with their text. *)
Definition validEntries (responses : list (string * option string))
  : list (string * string) :=
  flat_map (fun entry =>
              match snd entry with
              | Some text => if isValid (Some text) then [(fst entry, text)] else []
              | None => []
              end) responses.

Record Similarity : Type := { score : Num.number; validCount : nat }.

(** [new Set(response.split(/\s+/).filter(token => token.length > 3))]. *)
Definition tokenSet (response : string) : list string :=
  JSSet.make (filter (fun token => (3 <? String.length token)%nat)
                     (Str.split Str.isSpace response)).

(** The similarities the two nested loops add up, for [i < j]. *)
Fixpoint pairSimilarities (tokenSets : list (list string)) : list Num.number :=
  match tokenSets with
  | [] => []
  | si :: rest =>
      (map (fun sj => Num.div (Num.ofNat (JSSet.size (intersection si sj)))
                              (Num.ofNat (JSSet.size (union si sj)))) rest
       ++ pairSimilarities rest)%list
  end.

Definition calculateSimilarity (responses : list (string * option string)) : Similarity :=
  let validResponses := map (fun entry => Str.toLowerCase (snd entry))
                            (validEntries responses) in
  if (List.length validResponses <? 2)%nat
  then {| score := Num.ofZ 0; validCount := List.length validResponses |}
  else
    let tokenSets := map tokenSet validResponses in
    let similarities := pairSimilarities tokenSets in
    let totalSimilarity := fold_left Num.add similarities (Num.ofZ 0) in
    let comparisons := List.length similarities in
    let averageSimilarity :=
      if (0 <? comparisons)%nat
      then Num.div totalSimilarity (Num.ofNat comparisons) else Num.ofZ 0 in
    {| score := Num.Math_round (Num.mul averageSimilarity (Num.ofZ 100));
       validCount := List.length validResponses |}.

Fixpoint toUpperCase (s : string) : string :=
  match s with
  | EmptyString => EmptyString
  | String c r => String (Str.upperChar c) (toUpperCase r)
  end.

Record Details : Type := {
  commonThemes : list string;
  differences : list string;
  modelContributions : list (string * string);
  validModels : nat;
  similarityScore : Num.number
}.

Record Result : Type := {
  response : string;
  confidence : string;
  confidenceScore : Num.number;
  approach : string;
  details : Details
}.

Definition createFallbackSynthesis (responses : list (string * option string))
    (similarity : Similarity) : Result :=
  let validResponses := validEntries responses in
  if (List.length validResponses =? 0)%nat then
    {| response := "Unable to get responses from AI models at this time. Please try again later.";
       confidence := "low";
       confidenceScore := Num.ofZ 0;
       approach := "Service Unavailable";
       details := {| commonThemes := []; differences := []; modelContributions := [];
                     validModels := 0; similarityScore := Num.ofZ 0 |} |}
  else
    {| response :=
         Str.join (Str.newline ++ Str.newline)
                  (map (fun entry => toUpperCase (fst entry) ++ ": " ++ snd entry)
                       validResponses);
       confidence :=
         if Num.gt (score similarity) (Num.ofZ 70) then "high"
         else if Num.gt (score similarity) (Num.ofZ 30) then "medium" else "low";
       confidenceScore := score similarity;
       approach := "Direct Model Responses";
       details := {| commonThemes := []; differences := [];
                     modelContributions := validResponses;
                     validModels := List.length validResponses;
                     similarityScore := score similarity |} |}.

(** The confidence levels the schema of the synthesis allows. *)
Inductive level : Type := high | medium | low.

Definition levelName (l : level) : string :=
  match l with high => "high" | medium => "medium" | low => "low" end.

Definition getApproachDescription (l : level) : string :=
  match l with
  | high => "Consensus Synthesis - All models strongly agree on the core response."
  | medium => "Multi-Perspective Integration - Models show partial agreement with some unique insights."
  | low => "Comparative Analysis - Models provided significantly different approaches."
  end.

(** The parsed answer of the synthesis chain. *)
Record Synthesis : Type := {
  synthesizedResponse : string;
  synthesisConfidence : level;
  synthesisScore : Num.number;
  synthesisThemes : list string;
  keyDifferences : list string;
  synthesisContributions : list (string * string)
}.

(** What invoking the synthesis chain does, on the query and the three
    responses it is given ([x || 'No response available']). *)
Inductive synthesisInvocation : Type :=
| Parsed (synthesis : Synthesis)
| SynthesisThrew.

Definition synthesisChain : Type :=
  string -> string -> string -> string -> synthesisInvocation.

Definition orUnavailable (x : option string) : string :=
  match orNull x with
  | Some text => text
  | None => "No response available"
  end.

Definition synthesizeResponses (chain : option synthesisChain) (query : string)
    (responses : Responses) : Result :=
  let similarity := calculateSimilarity (entries responses) in
  match chain with
  | Some invoke =>
      if (2 <=? validCount similarity)%nat then
        match invoke query (orUnavailable (openai responses))
                     (orUnavailable (anthropic responses))
                     (orUnavailable (google responses)) with
        | Parsed synthesis =>
            {| response := synthesizedResponse synthesis;
               confidence := levelName (synthesisConfidence synthesis);
               confidenceScore := synthesisScore synthesis;
               approach := getApproachDescription (synthesisConfidence synthesis);
               details := {| commonThemes := synthesisThemes synthesis;
                             differences := keyDifferences synthesis;
                             modelContributions := synthesisContributions synthesis;
                             validModels := validCount similarity;
                             similarityScore := score similarity |} |}
        | SynthesisThrew =>
            createFallbackSynthesis (entries responses)
                                    {| score := Num.ofZ 0; validCount := 0 |}
        end
      else createFallbackSynthesis (entries responses) similarity
  | None => createFallbackSynthesis (entries responses) similarity
  end.

(** The [sourcesUsed] the server lists:
    [Object.keys(modelResponses).filter(key => modelResponses[key] && ...)]. *)
Definition sourcesUsedOf (responses : Responses) : list string :=
  map fst (filter (fun entry => isValid (snd entry)) (entries responses)).

End LangChain.

(** ** Vocabulary of the further statements *)

(** The characters of a string. *)
Definition chars (s : string) : list ascii := list_ascii_of_string s.

(** The sentences of a response, each with the source of the response. *)
Definition sentenceOf (responses : list Valid.t) (sentence source : string) : Prop :=
  exists r, In r responses /\ Valid.source r = source
            /\ In sentence (splitIntoSentences (Valid.text r)).

(** What [findCommonThemes] keeps true of every theme it collects. *)
Definition themeFrom (responses : list Valid.t) (theme : string) : Prop :=
  exists sentence source other otherSource,
    sentenceOf responses sentence source
    /\ sentenceOf responses other otherSource
    /\ otherSource <> source
    /\ theme = Str.trim sentence
    /\ Num.gt (calculateTextSimilarity sentence other) Num.lit_0_6 = true.

(** The first line of the balanced answer. *)
Definition balancedHeader : string :=
  "**Based on multiple AI perspectives:**" ++ Str.newline ++ Str.newline.

(** Sample inputs. *)
Definition fourteenWords : string :=
  "alpha bravo charlie delta echo foxtrot golf hotel india juliet kilo lima mike november".

(** Three texts of seventeen words, fourteen of them common to all: every
    pair has 14 words out of 20 in common. *)
Definition threeAtSeventy : list (string * response) :=
  [("openai", Text (fourteenWords ++ " oscar papa quebec"));
   ("anthropic", Text (fourteenWords ++ " romeo sierra tango"));
   ("google", Text (fourteenWords ++ " uniform victor whiskey"))].

Definition longerBase : string :=
  fourteenWords ++ " extraordinarily-long-closing-token".

(** The second text repeats the fourteen words and adds a sentence of 20
    characters after a full stop and a space. *)
Definition withShortSentence : list (string * response) :=
  [("openai", Text longerBase);
   ("google", Text (fourteenWords ++ " . Zebras run very fast"))].

Definition shortAndLong : list (string * response) :=
  [("openai", Text "42");
   ("anthropic", Text "The answer to the question is forty-two, as computed.");
   ("google", Text "ok")].

Definition halfShared : list (string * response) :=
  [("openai", Text "alpha beta gamma delta");
   ("google", Text "alpha beta gamma omega sigma theta")].


(** * Properties *)

(** With at least two valid responses, what remains of
    [synthesizeResponses] is the choice between the three tiers. *)
Ltac two_or_more Hlen :=
  unfold synthesizeResponses;
  destruct (validResponsesOf _) as [| ?first [| ?second ?rest]];
  [cbn in Hlen; lia | cbn in Hlen; lia | cbv zeta].

(** ** The built-ins on sample values *)

Section BuiltIns.

(** The three literals are the correctly rounded quotients 7/10, 6/10 and
    3/10. *)
Lemma literals_rounded :
  Num.div (Num.ofZ 7) (Num.ofZ 10) = Num.lit_0_7
  /\ Num.div (Num.ofZ 6) (Num.ofZ 10) = Num.lit_0_6
  /\ Num.div (Num.ofZ 3) (Num.ofZ 10) = Num.lit_0_3.
Proof. repeat split; vm_compute; reflexivity. Qed.

Example split_spaces : Str.split Str.isSpace " a  b " = [EmptyString; "a"; "b"; EmptyString].
Proof. reflexivity. Qed.

Example split_empty : Str.split Str.isSpace EmptyString = [EmptyString].
Proof. reflexivity. Qed.

Example split_sentences :
  Str.split Str.isSentenceEnd "Foo bar. Baz qux!? end" = ["Foo bar"; " Baz qux"; " end"].
Proof. reflexivity. Qed.

Example round_half_up :
  Num.Math_round (Num.div (Num.ofZ 5) (Num.ofZ 2)) = Num.ofZ 3
  /\ Num.Math_round (Num.div (Num.ofZ (-5)) (Num.ofZ 2)) = Num.ofZ (-2)
  /\ Num.Math_round (Num.div (Num.ofZ (-1)) (Num.ofZ 2)) = S754_zero true
  /\ Num.Math_round Num.NaN = Num.NaN.
Proof. repeat split; vm_compute; reflexivity. Qed.

Example wordSet_sample : wordSet "To be OR not to  be, not" = ["not"; "be,"].
Proof. vm_compute. reflexivity. Qed.

(** The sum is rounded at every step: three similarities of 0.7 add up to
    2.0999999999999996 and average to the double just below 0.7. *)
Remark mean_of_three_0_7 :
  average [Num.lit_0_7; Num.lit_0_7; Num.lit_0_7]
  = S754_finite false 6305039478318693 (-53)
  /\ Num.ge (average [Num.lit_0_7; Num.lit_0_7; Num.lit_0_7]) Num.lit_0_7 = false.
Proof. split; vm_compute; reflexivity. Qed.

End BuiltIns.

(** ** Sets: membership and absence of duplicates *)

Section SetFacts.

Lemma has_In (s : list string) (x : string) : JSSet.has s x = true <-> In x s.
Proof.
  unfold JSSet.has. rewrite existsb_exists. split.
  - intros [y [Hy Heq]]. apply String.eqb_eq in Heq. now subst.
  - intros Hx. exists x. split; [assumption | apply String.eqb_refl].
Qed.

Lemma add_In (s : list string) (x y : string) :
  In y (JSSet.add s x) <-> In y s \/ y = x.
Proof.
  unfold JSSet.add. destruct (JSSet.has s x) eqn:Hhas.
  - apply has_In in Hhas. split; [now left | intros [H | ->]; assumption].
  - rewrite in_app_iff. simpl. intuition.
Qed.

Lemma add_NoDup (s : list string) (x : string) : NoDup s -> NoDup (JSSet.add s x).
Proof.
  intros Hs. unfold JSSet.add. destruct (JSSet.has s x) eqn:Hhas; [assumption |].
  assert (Hnot : ~ In x s).
  { intros Hin. apply has_In in Hin. congruence. }
  clear Hhas. induction Hs as [| a s Ha Hs IH]; simpl.
  - constructor; [intros [] | constructor].
  - constructor.
    + rewrite in_app_iff. simpl. intros [H | [H | []]]; [now apply Ha |].
      apply Hnot. now left.
    + apply IH. intros H. apply Hnot. now right.
Qed.

Lemma fold_add_In (items acc : list string) (y : string) :
  In y (fold_left JSSet.add items acc) <-> In y acc \/ In y items.
Proof.
  revert acc. induction items as [| x items IH]; intros acc; simpl.
  - intuition.
  - rewrite IH, add_In. intuition.
Qed.

Lemma fold_add_NoDup (items acc : list string) :
  NoDup acc -> NoDup (fold_left JSSet.add items acc).
Proof.
  revert acc. induction items as [| x items IH]; intros acc Hacc; simpl.
  - assumption.
  - apply IH. now apply add_NoDup.
Qed.

Lemma make_In (items : list string) (y : string) : In y (JSSet.make items) <-> In y items.
Proof. unfold JSSet.make. rewrite fold_add_In. simpl. intuition. Qed.

Lemma make_NoDup (items : list string) : NoDup (JSSet.make items).
Proof. apply fold_add_NoDup. constructor. Qed.

(** Two sets built from lists with the same elements have the same size. *)
Lemma make_size_ext (l k : list string) :
  (forall x, In x l <-> In x k) -> JSSet.size (JSSet.make l) = JSSet.size (JSSet.make k).
Proof.
  intros Hext. unfold JSSet.size. apply Permutation_length.
  apply NoDup_Permutation; try apply make_NoDup.
  intros x. rewrite !make_In. apply Hext.
Qed.

Lemma intersection_size_comm (a b : list string) :
  JSSet.size (intersection a b) = JSSet.size (intersection b a).
Proof.
  apply make_size_ext. intros x. rewrite !filter_In, !has_In. tauto.
Qed.

Lemma union_size_comm (a b : list string) :
  JSSet.size (union a b) = JSSet.size (union b a).
Proof.
  apply make_size_ext. intros x. rewrite !in_app_iff. tauto.
Qed.

End SetFacts.

(** ** The similarity of two texts *)

(** [x == x] holds for every number but NaN. *)
Lemma eq_refl_or_NaN (x : Num.number) : x = Num.NaN \/ Num.eq x x = true.
Proof.
  destruct x as [s | s | | s m e]; [right | right | left | right]; try reflexivity.
  - destruct s; reflexivity.
  - unfold Num.eq, SFeqb. cbn [SFcompare].
    rewrite Z.compare_refl, Pos.compare_cont_refl.
    destruct s; reflexivity.
Qed.

(** C8. The similarity does not depend on the order of its two arguments:
    for all texts [a] and [b], [calculateTextSimilarity a b] and
    [calculateTextSimilarity b a] are the same number.  The comparison [==]
    of the two holds as well, except where that number is NaN, which [==]
    never equates. *)
Theorem similarity_symmetric (a b : string) :
  calculateTextSimilarity a b = calculateTextSimilarity b a
  /\ (calculateTextSimilarity a b = Num.NaN
      \/ Num.eq (calculateTextSimilarity a b) (calculateTextSimilarity b a) = true).
Proof.
  assert (Hsym : calculateTextSimilarity a b = calculateTextSimilarity b a).
  { unfold calculateTextSimilarity.
    rewrite (orb_comm (falsy a) (falsy b)).
    destruct (falsy b || falsy a); [reflexivity |].
    cbv zeta.
    now rewrite intersection_size_comm, union_size_comm. }
  split; [exact Hsym |].
  rewrite <- Hsym. apply eq_refl_or_NaN.
Qed.

(** C3. Where the claim breaks: two identical non-empty texts without a word
    of three characters have similarity NaN, not 1; and two such texts that
    differ, which share no word, have similarity NaN, not 0.  Both word sets
    are empty and the quotient is 0/0. *)
Theorem similarity_NaN_without_long_words :
  wordSet "42" = [] /\ wordSet "no" = []
  /\ calculateTextSimilarity "42" "42" = Num.NaN
  /\ calculateTextSimilarity "42" "no" = Num.NaN.
Proof. repeat split; vm_compute; reflexivity. Qed.

(** C4. Where the claim breaks: on two valid texts without a word of three
    characters the mean similarity is NaN, the comparative branch is taken
    and [confidenceScore] is NaN, which is no integer. *)
Theorem score_NaN_on_short_answers :
  let result := synthesizeResponses [("openai", Text "42"); ("anthropic", Text "42")] in
  approach result = "comparative"
  /\ confidenceScore result = Num.NaN
  /\ Num.toInteger (confidenceScore result) = None.
Proof. repeat split; vm_compute; reflexivity. Qed.

(** ** Which entries are valid *)

Section ValidEntries.

Lemma validResponsesOf_cons (entry : string * response) (input : list (string * response)) :
  validResponsesOf (entry :: input) = (validEntry entry ++ validResponsesOf input)%list.
Proof. reflexivity. Qed.

Lemma valid_sources (input : list (string * response)) :
  map Valid.source (validResponsesOf input)
  = map (fun entry => Str.capitalize (fst entry)) (stringEntries input).
Proof.
  induction input as [| [source r] input IH]; [reflexivity |].
  rewrite validResponsesOf_cons, map_app, IH.
  destruct r as [text | e m s]; reflexivity.
Qed.

Lemma valid_texts (input : list (string * response)) :
  map Valid.text (validResponsesOf input) = stringTexts input.
Proof.
  induction input as [| [source r] input IH]; [reflexivity |].
  rewrite validResponsesOf_cons, map_app, IH.
  destruct r as [text | e m s]; reflexivity.
Qed.

Lemma valid_of_stringEntries (input : list (string * response)) :
  validResponsesOf input = validResponsesOf (stringEntries input).
Proof.
  induction input as [| [source r] input IH]; [reflexivity |].
  destruct r as [text | e m s].
  - change (stringEntries ((source, Text text) :: input))
      with ((source, Text text) :: stringEntries input).
    rewrite !validResponsesOf_cons. now f_equal.
  - exact IH.
Qed.

(** In each of the five outcomes [sourcesUsed] lists the sources of
    [validResponses]. *)
Lemma sourcesUsed_valid (input : list (string * response)) :
  sourcesUsed (synthesizeResponses input) = map Valid.source (validResponsesOf input).
Proof.
  unfold synthesizeResponses.
  destruct (validResponsesOf input) as [| first [| second rest]]; try reflexivity.
  cbv zeta.
  destruct (Num.ge _ Num.lit_0_7); [reflexivity |].
  destruct (Num.ge _ Num.lit_0_3); reflexivity.
Qed.

End ValidEntries.

(** C1 (amended). The only entries left out of the similarity computation
    and of [sourcesUsed] are those that do not hold a string (the objects
    built for failed calls).  [sourcesUsed] lists every provider whose entry
    holds a string, whatever the string says, with the first letter of its
    name in upper case and in the order of the input; and the texts the
    similarities are computed on are the texts of those same entries. *)
Theorem sourcesUsed_are_string_entries (input : list (string * response)) :
  sourcesUsed (synthesizeResponses input)
  = map (fun entry => Str.capitalize (fst entry)) (stringEntries input)
  /\ map Valid.text (validResponsesOf input) = stringTexts input.
Proof.
  split.
  - rewrite sourcesUsed_valid. apply valid_sources.
  - apply valid_texts.
Qed.

(** C1, as stated, fails: when the three adapters answer with their
    fallback texts, the three are compared with each other and all three
    are listed in [sourcesUsed]. *)
Lemma mock_texts_are_sources :
  let result := synthesizeResponses (allMocks "What is AI?") in
  sourcesUsed result = ["Openai"; "Anthropic"; "Google"]
  /\ approach result = "balanced"
  /\ List.length (similaritiesOf (validResponsesOf (allMocks "What is AI?"))) = 3.
Proof. repeat split; vm_compute; reflexivity. Qed.

(** C7. When exactly one entry of the input holds a string, the result is
    the single-source one: score 50, approach "single", that provider alone
    in [sourcesUsed] and its text, unchanged, as the answer. *)
Theorem single_valid_response (input : list (string * response)) (key text : string) :
  stringEntries input = [(key, Text text)] ->
  synthesizeResponses input
  = {| confidence := "Single Source";
       confidenceScore := Num.ofZ 50;
       synthesizedAnswer := text;
       approach := "single";
       sourcesUsed := [Str.capitalize key];
       reasoning := "Only one AI service provided a valid response" |}.
Proof.
  intros Hone. unfold synthesizeResponses.
  rewrite valid_of_stringEntries, Hone. reflexivity.
Qed.

Lemma single_valid_response_witness :
  let input := [("openai", Failure true "OpenAI timeout" "OpenAI");
                ("anthropic", Text "Hello there.");
                ("google", Failure true "Google AI call failed" "Google")] in
  stringEntries input = [("anthropic", Text "Hello there.")]
  /\ synthesizeResponses input
     = {| confidence := "Single Source";
          confidenceScore := Num.ofZ 50;
          synthesizedAnswer := "Hello there.";
          approach := "single";
          sourcesUsed := ["Anthropic"];
          reasoning := "Only one AI service provided a valid response" |}.
Proof.
  split; [reflexivity |].
  apply (single_valid_response _ "anthropic" "Hello there.").
  reflexivity.
Defined.

(** ** The mean of the pairwise similarities *)

Section Mean.

Lemma similaritiesOf_length (validResponses : list Valid.t) :
  2 * List.length (similaritiesOf validResponses)
  = List.length validResponses * (List.length validResponses - 1).
Proof.
  induction validResponses as [| ri rest IH]; [reflexivity |].
  cbn [similaritiesOf List.length].
  rewrite length_app, length_map, Nat.sub_succ, Nat.sub_0_r.
  destruct rest as [| rj rest']; [reflexivity |].
  cbn [List.length] in IH |- *. rewrite Nat.sub_succ, Nat.sub_0_r in IH. lia.
Qed.

Lemma similaritiesOf_pair (l1 l2 l3 : list Valid.t) (a b : Valid.t) :
  In (calculateTextSimilarity (Valid.text a) (Valid.text b))
     (similaritiesOf (l1 ++ a :: l2 ++ b :: l3)).
Proof.
  induction l1 as [| r l1 IH]; cbn [similaritiesOf app]; apply in_or_app.
  - left. apply in_map_iff. exists b. split; [reflexivity |].
    apply in_or_app. right. now left.
  - now right.
Qed.

Lemma similarity_empty_text (text : string) :
  calculateTextSimilarity EmptyString text = Num.ofZ 0
  /\ calculateTextSimilarity text EmptyString = Num.ofZ 0.
Proof.
  split; unfold calculateTextSimilarity; [reflexivity |].
  now rewrite orb_true_r.
Qed.

End Mean.

(** C2 (amended). A pair of texts of which one is empty has similarity 0,
    and that 0 is a term of the mean like any other: with at least two
    valid responses the list of similarities has one entry for every pair
    of them, the pairs with an empty text included, so the mean is the sum
    of all these entries divided by the number of pairs, which is at least
    1, and the score is the rounded percentage of that mean. *)
Theorem mean_counts_every_pair (input : list (string * response)) :
  let validResponses := validResponsesOf input in
  let similarities := similaritiesOf validResponses in
  2 <= List.length validResponses ->
  (forall text, calculateTextSimilarity EmptyString text = Num.ofZ 0
                /\ calculateTextSimilarity text EmptyString = Num.ofZ 0)
  /\ 2 * List.length similarities
     = List.length validResponses * (List.length validResponses - 1)
  /\ (forall l1 a l2 b l3, validResponses = (l1 ++ a :: l2 ++ b :: l3)%list ->
        In (calculateTextSimilarity (Valid.text a) (Valid.text b)) similarities)
  /\ 1 <= List.length similarities
  /\ confidenceScore (synthesizeResponses input)
     = percent (Num.div (fold_left Num.add similarities (Num.ofZ 0))
                        (Num.ofNat (List.length similarities))).
Proof.
  intros validResponses similarities Hlen.
  split; [exact similarity_empty_text |].
  split; [apply similaritiesOf_length |].
  split; [intros l1 a l2 b l3 Heq; subst similarities; rewrite Heq;
          apply similaritiesOf_pair |].
  split.
  - pose proof (similaritiesOf_length validResponses) as Hcount.
    fold similarities in Hcount. nia.
  - subst similarities validResponses. two_or_more Hlen.
    destruct (Num.ge _ Num.lit_0_7); [reflexivity |].
    destruct (Num.ge _ Num.lit_0_3); reflexivity.
Qed.

Lemma mean_counts_every_pair_witness :
  2 <= List.length (validResponsesOf twoAgreeOneEmpty)
  /\ 1 <= List.length (similaritiesOf (validResponsesOf twoAgreeOneEmpty))
  /\ confidenceScore (synthesizeResponses twoAgreeOneEmpty) = Num.ofZ 33.
Proof.
  assert (Hlen : 2 <= List.length (validResponsesOf twoAgreeOneEmpty)).
  { vm_compute. lia. }
  split; [exact Hlen |].
  destruct (mean_counts_every_pair twoAgreeOneEmpty Hlen) as (_ & _ & _ & Hpos & Hscore).
  split; [exact Hpos |].
  rewrite Hscore. vm_compute. reflexivity.
Defined.

(** C2, as stated, fails: with two equal texts and one empty text the two
    pairs with the empty text are counted, the mean is 1/3 and the score
    33; left out, as the claim has it, the mean would be 1. *)
Lemma empty_text_pairs_are_counted :
  similaritiesOf (validResponsesOf twoAgreeOneEmpty) = [Num.ofZ 1; Num.ofZ 0; Num.ofZ 0]
  /\ Spec.similaritiesExcludingEmpty (validResponsesOf twoAgreeOneEmpty) = [Num.ofZ 1]
  /\ avgSimilarityOf (validResponsesOf twoAgreeOneEmpty) = Num.div (Num.ofZ 1) (Num.ofZ 3)
  /\ average (Spec.similaritiesExcludingEmpty (validResponsesOf twoAgreeOneEmpty)) = Num.ofZ 1
  /\ avgSimilarityOf (validResponsesOf twoAgreeOneEmpty)
     <> average (Spec.similaritiesExcludingEmpty (validResponsesOf twoAgreeOneEmpty))
  /\ confidenceScore (synthesizeResponses twoAgreeOneEmpty) = Num.ofZ 33
  /\ approach (synthesizeResponses twoAgreeOneEmpty) = "balanced".
Proof. repeat split; try (vm_compute; reflexivity). vm_compute. discriminate. Qed.

(** ** The tier as a function of the mean *)

Section Comparisons.

Lemma SFcompare_antisym (x y : spec_float) :
  SFcompare y x = option_map CompOpp (SFcompare x y).
Proof.
  destruct x as [sx | sx | | sx mx ex], y as [sy | sy | | sy my ey];
    cbn [SFcompare option_map];
    try destruct sx; try destruct sy; try reflexivity.
  - rewrite (Z.compare_antisym ey ex).
    destruct (ey ?= ex)%Z; cbn [CompOpp]; try reflexivity.
    rewrite CompOpp_involutive. f_equal.
    rewrite Pos.compare_cont_antisym. reflexivity.
  - rewrite (Z.compare_antisym ey ex).
    destruct (ey ?= ex)%Z; cbn [CompOpp]; try reflexivity.
    f_equal. rewrite Pos.compare_cont_antisym. reflexivity.
Qed.

(** [x < y] excludes [x >= y]. *)
Lemma lt_not_ge (x y : Num.number) : Num.lt x y = true -> Num.ge x y = false.
Proof.
  unfold Num.lt, Num.ge, SFltb, SFleb. rewrite (SFcompare_antisym x y).
  destruct (SFcompare x y) as [[| |] |]; cbn; congruence.
Qed.

(** [x < 0.3] excludes [x >= 0.7]. *)
Lemma lt_0_3_not_ge_0_7 (x : Num.number) :
  Num.lt x Num.lit_0_3 = true -> Num.ge x Num.lit_0_7 = false.
Proof.
  unfold Num.lt, Num.ge, SFltb, SFleb, Num.lit_0_3, Num.lit_0_7.
  destruct x as [s | s | | s m e]; cbn [SFcompare]; try destruct s;
    try reflexivity; try discriminate.
  destruct (Z.compare_spec e (-54)) as [He | He | He];
    destruct (Z.compare_spec (-53) e) as [He' | He' | He'];
    try lia; try reflexivity; try discriminate.
Qed.

End Comparisons.

(** C5. Where the claim breaks: three valid texts of which every pair has
    14 words out of 20 in common have pairwise similarities of 0.7 each, so
    an arithmetic mean of exactly 0.7; the sum, rounded at every step, is
    2.0999999999999996 and the mean the code computes is the double just
    below 0.7: the result is in the medium tier, "Multiple Perspectives"
    and "balanced", with a score of 70. *)
Theorem mean_of_exactly_0_7_is_not_high :
  let texts := stringTexts threeAtSeventy in
  let result := synthesizeResponses threeAtSeventy in
  map (fun pair => (JSSet.size (intersection (wordSet (fst pair)) (wordSet (snd pair))),
                    JSSet.size (union (wordSet (fst pair)) (wordSet (snd pair)))))
      [(nth 0 texts EmptyString, nth 1 texts EmptyString);
       (nth 0 texts EmptyString, nth 2 texts EmptyString);
       (nth 1 texts EmptyString, nth 2 texts EmptyString)]
  = [(14, 20); (14, 20); (14, 20)]
  /\ similaritiesOf (validResponsesOf threeAtSeventy)
     = [Num.lit_0_7; Num.lit_0_7; Num.lit_0_7]
  /\ avgSimilarityOf (validResponsesOf threeAtSeventy)
     = S754_finite false 6305039478318693 (-53)
  /\ Num.ge (avgSimilarityOf (validResponsesOf threeAtSeventy)) Num.lit_0_7 = false
  /\ confidence result = "Multiple Perspectives"
  /\ approach result = "balanced"
  /\ confidenceScore result = Num.ofZ 70
  /\ reasoning result = "Models showed 70% agreement with notable differences".
Proof.
  cbv zeta.
  split; [vm_compute; reflexivity |].
  split; [vm_compute; reflexivity |].
  split; [vm_compute; reflexivity |].
  split; [vm_compute; reflexivity |].
  split; [vm_compute; reflexivity |].
  split; [vm_compute; reflexivity |].
  split; vm_compute; reflexivity.
Qed.

(** X28. With at least two valid responses the score is the rounded
    percentage of the mean the code computes, which is the sum of the
    pairwise similarities, added from left to right in binary64, divided
    by their number; and the tier follows that mean: at 0.7 or more "High
    Confidence" and "consensus"; from 0.3 on and below 0.7 "Multiple
    Perspectives" and "balanced"; below 0.3 "Diverse Approaches" and
    "comparative".  A computed mean of exactly 0.7 is in the high tier and
    one of exactly 0.3 in the medium one. *)
Theorem tier_by_mean (input : list (string * response)) :
  let validResponses := validResponsesOf input in
  let similarities := similaritiesOf validResponses in
  let mean := Num.div (fold_left Num.add similarities (Num.ofZ 0))
                      (Num.ofNat (List.length similarities)) in
  let result := synthesizeResponses input in
  2 <= List.length validResponses ->
  confidenceScore result = Num.Math_round (Num.mul mean (Num.ofZ 100))
  /\ (Num.ge mean Num.lit_0_7 = true ->
      confidence result = "High Confidence" /\ approach result = "consensus")
  /\ (Num.ge mean Num.lit_0_3 = true -> Num.lt mean Num.lit_0_7 = true ->
      confidence result = "Multiple Perspectives" /\ approach result = "balanced")
  /\ (Num.lt mean Num.lit_0_3 = true ->
      confidence result = "Diverse Approaches" /\ approach result = "comparative")
  /\ (mean = Num.lit_0_7 ->
      confidence result = "High Confidence" /\ approach result = "consensus")
  /\ (mean = Num.lit_0_3 ->
      confidence result = "Multiple Perspectives" /\ approach result = "balanced").
Proof.
  intros validResponses similarities mean result.
  subst similarities validResponses.
  change (Num.div _ _) with (avgSimilarityOf (validResponsesOf input)) in (value of mean).
  intros Hlen.
  assert (Hhigh : Num.ge mean Num.lit_0_7 = true ->
                  confidence result = "High Confidence" /\ approach result = "consensus").
  { subst mean result. two_or_more Hlen. intros ->. split; reflexivity. }
  assert (Hmedium : Num.ge mean Num.lit_0_7 = false -> Num.ge mean Num.lit_0_3 = true ->
                    confidence result = "Multiple Perspectives"
                    /\ approach result = "balanced").
  { subst mean result. two_or_more Hlen. intros -> ->. split; reflexivity. }
  assert (Hlow : Num.ge mean Num.lit_0_7 = false -> Num.ge mean Num.lit_0_3 = false ->
                 confidence result = "Diverse Approaches"
                 /\ approach result = "comparative").
  { subst mean result. two_or_more Hlen. intros -> ->. split; reflexivity. }
  split.
  { subst mean result. two_or_more Hlen.
    destruct (Num.ge _ Num.lit_0_7); [reflexivity |].
    destruct (Num.ge _ Num.lit_0_3); reflexivity. }
  split; [exact Hhigh |].
  split; [intros H3 H7; apply Hmedium; [now apply lt_not_ge | exact H3] |].
  split; [intros H3; apply Hlow; [now apply lt_0_3_not_ge_0_7 | now apply lt_not_ge] |].
  split.
  - intros Heq. apply Hhigh. rewrite Heq. reflexivity.
  - intros Heq. apply Hmedium; rewrite Heq; reflexivity.
Qed.

Lemma tier_by_mean_witness :
  (2 <= List.length (validResponsesOf sevenOfTen)
   /\ avgSimilarityOf (validResponsesOf sevenOfTen) = Num.lit_0_7
   /\ confidence (synthesizeResponses sevenOfTen) = "High Confidence"
   /\ confidenceScore (synthesizeResponses sevenOfTen) = Num.ofZ 70)
  /\ (2 <= List.length (validResponsesOf threeOfTen)
      /\ avgSimilarityOf (validResponsesOf threeOfTen) = Num.lit_0_3
      /\ confidence (synthesizeResponses threeOfTen) = "Multiple Perspectives"
      /\ confidenceScore (synthesizeResponses threeOfTen) = Num.ofZ 30)
  /\ (2 <= List.length (validResponsesOf nothingShared)
      /\ Num.lt (avgSimilarityOf (validResponsesOf nothingShared)) Num.lit_0_3 = true
      /\ confidence (synthesizeResponses nothingShared) = "Diverse Approaches"
      /\ confidenceScore (synthesizeResponses nothingShared) = Num.ofZ 0).
Proof.
  assert (H7 : 2 <= List.length (validResponsesOf sevenOfTen)) by (vm_compute; lia).
  assert (H3 : 2 <= List.length (validResponsesOf threeOfTen)) by (vm_compute; lia).
  assert (H0 : 2 <= List.length (validResponsesOf nothingShared)) by (vm_compute; lia).
  assert (M7 : avgSimilarityOf (validResponsesOf sevenOfTen) = Num.lit_0_7)
    by (vm_compute; reflexivity).
  assert (M3 : avgSimilarityOf (validResponsesOf threeOfTen) = Num.lit_0_3)
    by (vm_compute; reflexivity).
  assert (M0 : Num.lt (avgSimilarityOf (validResponsesOf nothingShared)) Num.lit_0_3 = true)
    by (vm_compute; reflexivity).
  destruct (tier_by_mean sevenOfTen H7) as (S7 & _ & _ & _ & B7 & _).
  destruct (tier_by_mean threeOfTen H3) as (S3 & _ & _ & _ & _ & B3).
  destruct (tier_by_mean nothingShared H0) as (S0 & _ & _ & L0 & _ & _).
  split; [| split].
  - split; [exact H7 | split; [exact M7 | split]].
    + apply (B7 M7).
    + rewrite S7. vm_compute. reflexivity.
  - split; [exact H3 | split; [exact M3 | split]].
    + apply (B3 M3).
    + rewrite S3. vm_compute. reflexivity.
  - split; [exact H0 | split; [exact M0 | split]].
    + apply (L0 M0).
    + rewrite S0. vm_compute. reflexivity.
Defined.

(** ** The consensus answer *)

Section Consensus.

Lemma In_firstn {A : Type} (n : nat) (l : list A) (x : A) : In x (firstn n l) -> In x l.
Proof.
  intros Hx. rewrite <- (firstn_skipn n l). apply in_or_app. now left.
Qed.

Lemma trimStart_length (s : string) : String.length (Str.trimStart s) <= String.length s.
Proof.
  induction s as [| c r IH]; cbn [Str.trimStart]; [lia |].
  destruct (Str.isSpace c); cbn [String.length] in *; lia.
Qed.

Lemma trimEnd_length (s : string) : String.length (Str.trimEnd s) <= String.length s.
Proof.
  induction s as [| c r IH]; cbn [Str.trimEnd]; [lia |].
  destruct (Str.trimEnd r) as [| c' r'].
  - destruct (Str.isSpace c); cbn [String.length] in *; lia.
  - cbn [String.length] in *. lia.
Qed.

Lemma trim_length (s : string) : String.length (Str.trim s) <= String.length s.
Proof.
  unfold Str.trim.
  pose proof (trimEnd_length (Str.trimStart s)). pose proof (trimStart_length s). lia.
Qed.

Lemma isUnique_spec (baseSentences : list string) (sentence : string) :
  isUnique baseSentences sentence = true <->
  forall baseSentence, In baseSentence baseSentences ->
    Num.gt (calculateTextSimilarity sentence baseSentence) Num.lit_0_7 = false.
Proof.
  unfold isUnique. rewrite negb_true_iff. split.
  - intros Hnone b Hb.
    destruct (Num.gt (calculateTextSimilarity sentence b) Num.lit_0_7) eqn:Hgt;
      [| reflexivity].
    assert (Hsome : existsb (fun baseSentence =>
              Num.gt (calculateTextSimilarity sentence baseSentence) Num.lit_0_7)
              baseSentences = true).
    { apply existsb_exists. now exists b. }
    congruence.
  - intros Hall.
    destruct (existsb _ baseSentences) eqn:Hex; [| reflexivity].
    apply existsb_exists in Hex. destruct Hex as [b [Hb Hgt]].
    rewrite (Hall b Hb) in Hgt. discriminate.
Qed.

Lemma detailOf_inv (baseSentences : list string) (source sentence detail : string) :
  In detail (detailOf baseSentences source sentence) ->
  isUnique baseSentences sentence = true
  /\ 20 < String.length sentence /\ String.length sentence < 150
  /\ detail = source ++ ": " ++ Str.trim sentence.
Proof.
  unfold detailOf.
  destruct (isUnique baseSentences sentence); cbn [andb]; [| intros []].
  destruct (20 <? String.length sentence)%nat eqn:Hlo; cbn [andb]; [| intros []].
  destruct (String.length sentence <? 150)%nat eqn:Hhi; [| intros []].
  apply Nat.ltb_lt in Hlo, Hhi.
  intros [<- | []]. repeat split; assumption.
Qed.

Lemma detailOf_out_of_range (baseSentences : list string) (source sentence : string) :
  String.length sentence <= 20 \/ 150 <= String.length sentence ->
  detailOf baseSentences source sentence = [].
Proof.
  intros Hrange. unfold detailOf.
  destruct (isUnique baseSentences sentence); cbn [andb]; [| reflexivity].
  destruct (20 <? String.length sentence)%nat eqn:Hlo; cbn [andb]; [| reflexivity].
  destruct (String.length sentence <? 150)%nat eqn:Hhi; [| reflexivity].
  apply Nat.ltb_lt in Hlo, Hhi. lia.
Qed.

(** Where an element of [uniqueDetails] comes from. *)
Lemma extractUniqueDetails_inv (baseResponse : Valid.t) (allResponses : list Valid.t)
    (detail : string) :
  In detail (extractUniqueDetails baseResponse allResponses) ->
  exists response sentence,
    In response allResponses
    /\ Valid.source response <> Valid.source baseResponse
    /\ In sentence (splitIntoSentences (Valid.text response))
    /\ isUnique (splitIntoSentences (Valid.text baseResponse)) sentence = true
    /\ 20 < String.length sentence /\ String.length sentence < 150
    /\ detail = Valid.source response ++ ": " ++ Str.trim sentence.
Proof.
  unfold extractUniqueDetails. intros Hin. apply In_firstn in Hin.
  apply in_flat_map in Hin. destruct Hin as [response [Hresp Hin]].
  unfold detailsOf in Hin.
  destruct (String.eqb_spec (Valid.source response) (Valid.source baseResponse))
    as [Heq | Hneq]; [destruct Hin |].
  apply in_flat_map in Hin. destruct Hin as [sentence [Hsent Hin]].
  apply detailOf_inv in Hin. destruct Hin as (Huniq & Hlo & Hhi & Hdetail).
  exists response, sentence. repeat split; assumption.
Qed.

(** [longestOf] returns the first of the longest responses. *)
Lemma longestOf_fold (rest seenBefore seenAfter : list Valid.t) (longest : Valid.t) :
  (forall r, In r seenBefore -> Valid.length r < Valid.length longest) ->
  (forall r, In r seenAfter -> Valid.length r <= Valid.length longest) ->
  exists earlier later,
    (seenBefore ++ longest :: seenAfter ++ rest)%list
    = (earlier ++ longestOf longest rest :: later)%list
    /\ (forall r, In r earlier -> Valid.length r < Valid.length (longestOf longest rest))
    /\ (forall r, In r later -> Valid.length r <= Valid.length (longestOf longest rest)).
Proof.
  revert seenBefore seenAfter longest.
  induction rest as [| current rest IH]; intros seenBefore seenAfter longest Hbefore Hafter.
  - exists seenBefore, seenAfter. rewrite app_nil_r. repeat split; assumption.
  - unfold longestOf. cbn [fold_left]. fold (longestOf
      (if (Valid.length longest <? Valid.length current)%nat then current else longest)
      rest).
    destruct (Valid.length longest <? Valid.length current)%nat eqn:Hcmp.
    + apply Nat.ltb_lt in Hcmp.
      destruct (IH (seenBefore ++ longest :: seenAfter)%list [] current)
        as (earlier & later & Heq & He & Hl).
      * intros r Hr. apply in_app_or in Hr. destruct Hr as [Hr | [<- | Hr]].
        -- specialize (Hbefore r Hr). lia.
        -- exact Hcmp.
        -- specialize (Hafter r Hr). lia.
      * intros r [].
      * exists earlier, later. split; [| split; assumption].
        rewrite <- Heq. rewrite <- app_assoc. reflexivity.
    + apply Nat.ltb_ge in Hcmp.
      destruct (IH seenBefore (seenAfter ++ [current])%list longest)
        as (earlier & later & Heq & He & Hl).
      * exact Hbefore.
      * intros r Hr. apply in_app_or in Hr. destruct Hr as [Hr | [<- | []]].
        -- now apply Hafter.
        -- exact Hcmp.
      * exists earlier, later. split; [| split; assumption].
        rewrite <- Heq. rewrite <- app_assoc. reflexivity.
Qed.

Lemma longestOf_first (first : Valid.t) (rest : list Valid.t) :
  exists earlier later,
    first :: rest = (earlier ++ longestOf first rest :: later)%list
    /\ (forall r, In r earlier -> Valid.length r < Valid.length (longestOf first rest))
    /\ (forall r, In r later -> Valid.length r <= Valid.length (longestOf first rest)).
Proof.
  apply (longestOf_fold rest [] [] first); intros r [].
Qed.

Lemma valid_length (input : list (string * response)) (r : Valid.t) :
  In r (validResponsesOf input) -> Valid.length r = String.length (Valid.text r).
Proof.
  unfold validResponsesOf. intros Hr. apply in_flat_map in Hr.
  destruct Hr as [[source resp] [_ Hr]].
  destruct resp as [text | e m s]; cbn in Hr; [| destruct Hr].
  destruct Hr as [<- | []]. reflexivity.
Qed.

Lemma consensusText_suffix (baseResponse : Valid.t) (uniqueDetails : list string) :
  consensusText baseResponse uniqueDetails
  = Valid.text baseResponse ++ insightsSuffix uniqueDetails.
Proof. destruct uniqueDetails; reflexivity. Qed.

End Consensus.

(** C6 (amended). With at least two valid responses and a mean similarity of
    0.7 or more, the answer is the text of the first of the longest valid
    responses (length counted in characters), followed by at most three
    additional insights.  Each insight is a sentence of a valid response
    whose source differs from the source of the base, written after that
    source, and its similarity to every sentence of the base is not above
    0.7: a sentence is a near-duplicate when the similarity is strictly
    greater than 0.7, and a similarity of exactly 0.7 does not exclude it. *)
Theorem consensus_answer (input : list (string * response)) :
  let validResponses := validResponsesOf input in
  let result := synthesizeResponses input in
  2 <= List.length validResponses ->
  Num.ge (avgSimilarityOf validResponses) Num.lit_0_7 = true ->
  exists baseResponse earlier later uniqueDetails,
    validResponses = (earlier ++ baseResponse :: later)%list
    /\ (forall r, In r earlier ->
          String.length (Valid.text r) < String.length (Valid.text baseResponse))
    /\ (forall r, In r later ->
          String.length (Valid.text r) <= String.length (Valid.text baseResponse))
    /\ uniqueDetails = extractUniqueDetails baseResponse validResponses
    /\ synthesizedAnswer result = Valid.text baseResponse ++ insightsSuffix uniqueDetails
    /\ List.length uniqueDetails <= 3
    /\ (forall detail, In detail uniqueDetails ->
          exists response sentence,
            In response validResponses
            /\ Valid.source response <> Valid.source baseResponse
            /\ In sentence (splitIntoSentences (Valid.text response))
            /\ detail = Valid.source response ++ ": " ++ Str.trim sentence
            /\ (forall baseSentence,
                  In baseSentence (splitIntoSentences (Valid.text baseResponse)) ->
                  Num.gt (calculateTextSimilarity sentence baseSentence) Num.lit_0_7
                  = false)).
Proof.
  intros validResponses result Hlen Hhigh.
  pose proof (valid_length input) as Hvlen. fold validResponses in Hvlen.
  subst result. unfold synthesizeResponses. fold validResponses.
  destruct validResponses as [| first [| second rest]] eqn:Hvalid;
    [cbn in Hlen; lia | cbn in Hlen; lia |].
  cbv zeta. rewrite Hhigh. cbn [synthesizedAnswer].
  destruct (longestOf_first first (second :: rest)) as (earlier & later & Hsplit & He & Hl).
  set (baseResponse := longestOf first (second :: rest)) in *.
  assert (Hbase : In baseResponse (first :: second :: rest)).
  { rewrite Hsplit. apply in_or_app. right. now left. }
  exists baseResponse, earlier, later,
    (extractUniqueDetails baseResponse (first :: second :: rest)).
  split; [exact Hsplit |].
  split.
  { intros r Hr. rewrite <- (Hvlen _ Hbase). rewrite <- (Hvlen r).
    - now apply He.
    - rewrite Hsplit. apply in_or_app. now left. }
  split.
  { intros r Hr. rewrite <- (Hvlen _ Hbase). rewrite <- (Hvlen r).
    - now apply Hl.
    - rewrite Hsplit. apply in_or_app. right. now right. }
  split; [reflexivity |].
  split; [apply consensusText_suffix |].
  split; [apply firstn_le_length |].
  intros detail Hdetail.
  apply extractUniqueDetails_inv in Hdetail.
  destruct Hdetail as (response & sentence & Hr & Hsrc & Hs & Huniq & _ & _ & Hd).
  exists response, sentence.
  repeat (split; [assumption |]).
  now apply isUnique_spec.
Qed.

Lemma consensus_answer_witness :
  2 <= List.length (validResponsesOf sevenOfTen)
  /\ Num.ge (avgSimilarityOf (validResponsesOf sevenOfTen)) Num.lit_0_7 = true
  /\ exists baseResponse uniqueDetails,
       In baseResponse (validResponsesOf sevenOfTen)
       /\ List.length uniqueDetails <= 3
       /\ synthesizedAnswer (synthesizeResponses sevenOfTen)
          = Valid.text baseResponse ++ insightsSuffix uniqueDetails.
Proof.
  assert (Hlen : 2 <= List.length (validResponsesOf sevenOfTen)) by (vm_compute; lia).
  assert (Hhigh : Num.ge (avgSimilarityOf (validResponsesOf sevenOfTen)) Num.lit_0_7 = true)
    by (vm_compute; reflexivity).
  split; [exact Hlen |]. split; [exact Hhigh |].
  destruct (consensus_answer sevenOfTen Hlen Hhigh)
    as (baseResponse & earlier & later & uniqueDetails & Hsplit & _ & _ & _ & Hans & Hn & _).
  exists baseResponse, uniqueDetails.
  split; [rewrite Hsplit; apply in_or_app; right; now left |].
  split; assumption.
Defined.

(** C6, as stated, fails: a sentence whose similarity to the sentence of the
    base is exactly 0.7, a near-duplicate by the threshold of the claim, is
    appended as an additional insight. *)
Lemma sentence_at_threshold_is_appended :
  approach (synthesizeResponses sevenOfTen) = "consensus"
  /\ splitIntoSentences sevenOfTenBase = [sevenOfTenBase]
  /\ splitIntoSentences sevenOfTenOther = [sevenOfTenOther]
  /\ calculateTextSimilarity sevenOfTenOther sevenOfTenBase = Num.lit_0_7
  /\ Num.ge (calculateTextSimilarity sevenOfTenOther sevenOfTenBase) Num.lit_0_7 = true
  /\ synthesizedAnswer (synthesizeResponses sevenOfTen)
     = sevenOfTenBase ++ Str.newline ++ Str.newline ++ "**Additional insights:**"
       ++ Str.newline ++ Str.bullet ++ " Google: " ++ sevenOfTenOther.
Proof.
  split; [vm_compute; reflexivity |].
  split; [vm_compute; reflexivity |].
  split; [vm_compute; reflexivity |].
  split; [vm_compute; reflexivity |].
  split; vm_compute; reflexivity.
Qed.

(** C10 (amended). The test on the length is made on the sentence as
    [splitIntoSentences] returns it, before it is trimmed: every additional
    insight comes from a sentence that is longer than 20 and shorter than
    150 characters as split, and a sentence of 20 characters or fewer, or of
    150 or more, as split is never made an insight, duplicate or not.  What
    is appended is that sentence trimmed, which is shorter than 150 and
    longer than 10 characters. *)
Theorem insights_have_bounded_length (baseResponse : Valid.t)
    (allResponses : list Valid.t) (detail : string) :
  In detail (extractUniqueDetails baseResponse allResponses) ->
  (exists response sentence,
     In response allResponses
     /\ In sentence (splitIntoSentences (Valid.text response))
     /\ detail = Valid.source response ++ ": " ++ Str.trim sentence
     /\ 20 < String.length sentence
     /\ String.length sentence < 150
     /\ 10 < String.length (Str.trim sentence)
     /\ String.length (Str.trim sentence) < 150)
  /\ (forall source sentence,
        String.length sentence <= 20 \/ 150 <= String.length sentence ->
        detailOf (splitIntoSentences (Valid.text baseResponse)) source sentence = []).
Proof.
  intros Hdetail. split.
  - apply extractUniqueDetails_inv in Hdetail.
    destruct Hdetail as (response & sentence & Hr & _ & Hs & _ & Hlo & Hhi & Hd).
    exists response, sentence.
    repeat (split; [assumption |]).
    split.
    + unfold splitIntoSentences in Hs. apply filter_In in Hs.
      destruct Hs as [_ Hlen]. now apply Nat.ltb_lt in Hlen.
    + pose proof (trim_length sentence). lia.
  - intros source sentence. apply detailOf_out_of_range.
Qed.

Lemma insights_have_bounded_length_witness :
  let baseResponse := Valid.make "Openai" sevenOfTenBase (String.length sevenOfTenBase) in
  let detail := "Google: " ++ sevenOfTenOther in
  In detail (extractUniqueDetails baseResponse (validResponsesOf sevenOfTen))
  /\ exists response sentence,
       detail = Valid.source response ++ ": " ++ Str.trim sentence
       /\ 20 < String.length sentence /\ String.length sentence < 150.
Proof.
  intros baseResponse detail.
  assert (Hin : In detail (extractUniqueDetails baseResponse (validResponsesOf sevenOfTen))).
  { vm_compute. left. reflexivity. }
  split; [exact Hin |].
  destruct (insights_have_bounded_length _ _ _ Hin)
    as [(response & sentence & _ & _ & Hd & Hlo & Hhi & _) _].
  exists response, sentence. repeat split; assumption.
Defined.

(** C10, as stated, fails: a sentence of 20 characters that follows a full
    stop and a space has 21 characters as split, passes the test and is
    appended, trimmed, as an additional insight of 20 characters. *)
Lemma insight_of_20_characters_is_appended :
  approach (synthesizeResponses withShortSentence) = "consensus"
  /\ In " Zebras run very fast"
        (splitIntoSentences (fourteenWords ++ " . Zebras run very fast"))
  /\ String.length " Zebras run very fast" = 21
  /\ String.length "Zebras run very fast" = 20
  /\ synthesizedAnswer (synthesizeResponses withShortSentence)
     = longerBase ++ Str.newline ++ Str.newline ++ "**Additional insights:**"
       ++ Str.newline ++ Str.bullet ++ " Google: " ++ "Zebras run very fast".
Proof.
  split; [vm_compute; reflexivity |].
  split; [vm_compute; right; left; reflexivity |].
  split; [reflexivity |].
  split; [reflexivity |].
  vm_compute. reflexivity.
Qed.

(** ** Determinism *)


(** * Further properties *)

(** ** Numbers: conversion of sizes and quotients *)

Section FloatFacts.

Lemma digits2_size (p : positive) : digits2_pos p = Pos.size p.
Proof. induction p; cbn; congruence. Qed.

Lemma digits2_iter_xO (p k : positive) :
  digits2_pos (Pos.iter xO p k) = (digits2_pos p + k)%positive.
Proof.
  induction k as [| k IH] using Pos.peano_ind.
  - cbn. lia.
  - rewrite Pos.iter_succ. cbn [digits2_pos]. rewrite IH. lia.
Qed.

Lemma digits2_bound (p : positive) : (Z.pos p < 2 ^ 53)%Z -> (Z.pos (digits2_pos p) <= 53)%Z.
Proof.
  intros Hp. rewrite digits2_size.
  destruct (Z.le_gt_cases (Z.pos (Pos.size p)) 53) as [H | H]; [exact H | exfalso].
  pose proof (Pos.size_le p) as Hle.
  assert (H2 : (2 ^ 54 <= 2 ^ Z.pos (Pos.size p))%Z) by (apply Z.pow_le_mono_r; lia).
  assert (H3 : (2 ^ Z.pos (Pos.size p) <= 2 * Z.pos p)%Z).
  { rewrite <- (Pos2Z.inj_pow 2 (Pos.size p)).
    change (2 * Z.pos p)%Z with (Z.pos p~0). exact Hle. }
  change (2 ^ 54)%Z with (2 * 2 ^ 53)%Z in H2. lia.
Qed.

(** A mantissa of 53 digits with an exponent in range is kept as it is. *)
Lemma round_aux_canonical (s : bool) (m : positive) (e : Z) :
  Z.pos (digits2_pos m) = 53%Z -> (-1074 <= e <= 971)%Z ->
  binary_round_aux Num.prec Num.emax s (Z.pos m) e loc_Exact = S754_finite s m e.
Proof.
  intros Hd He.
  assert (Hshift : (fexp Num.prec Num.emax (Zdigits2 (Z.pos m) + e) - e = 0)%Z).
  { unfold fexp, emin, Num.prec, Num.emax. cbn [Zdigits2]. rewrite Hd. lia. }
  unfold binary_round_aux, shr_fexp. rewrite Hshift.
  cbn [shr shr_record_of_loc shr_m loc_of_shr_record round_nearest_even].
  rewrite Hshift. cbn [shr shr_record_of_loc shr_m].
  unfold Num.prec, Num.emax.
  destruct (Z.leb_spec e (1024 - 53)); [reflexivity | lia].
Qed.

Lemma ofZ_pos_finite (p : positive) :
  (Z.pos p < 2 ^ 53)%Z -> exists m e, Num.ofZ (Z.pos p) = S754_finite false m e.
Proof.
  intros Hp. pose proof (digits2_bound p Hp) as Hd.
  unfold Num.ofZ, binary_normalize, binary_round.
  assert (Hfexp : fexp Num.prec Num.emax (Z.pos (digits2_pos p) + 0)
                  = (Z.pos (digits2_pos p) - 53)%Z).
  { unfold fexp, emin, Num.prec, Num.emax. lia. }
  rewrite Hfexp. unfold shl_align.
  destruct (Z.pos (digits2_pos p) - 53 - 0)%Z as [| k | k] eqn:Hk; try lia.
  - exists p, 0%Z. apply round_aux_canonical; lia.
  - exists (Pos.iter xO p k), (Z.pos (digits2_pos p) - 53)%Z.
    apply round_aux_canonical; [| lia].
    rewrite digits2_iter_xO. lia.
Qed.





Lemma div_same (s : bool) (m : positive) (e : Z) :
  Num.div (S754_finite s m e) (S754_finite s m e) = Num.ofZ 1.
Proof.
  unfold Num.div, SFdiv.
  assert (Hcore : SFdiv_core_binary Num.prec Num.emax (Z.pos m) e (Z.pos m) e
                  = ((2 ^ 53)%Z, (-53)%Z, loc_Exact)).
  { unfold SFdiv_core_binary. cbv zeta.
    rewrite !Z.sub_diag.
    change (Z.min (fexp Num.prec Num.emax 0) 0) with (-53)%Z.
    change (0 - -53)%Z with 53%Z. cbv iota.
    rewrite Z.shiftl_mul_pow2 by lia.
    pose proof (Z.div_eucl_eq (Z.pos m * 2 ^ 53) (Z.pos m)) as Heq.
    pose proof (Z.mod_pos_bound (Z.pos m * 2 ^ 53) (Z.pos m)) as Hbound.
    unfold Z.modulo in Hbound.
    destruct (Z.div_eucl (Z.pos m * 2 ^ 53) (Z.pos m)) as [q r].
    assert (Hr : (0 <= r < Z.pos m)%Z) by (apply Hbound; lia).
    assert (Hm : (Z.pos m * 2 ^ 53 = Z.pos m * q + r)%Z) by (apply Heq; lia).
    assert (Hq : q = (2 ^ 53)%Z) by nia.
    assert (Hr0 : r = 0%Z) by nia.
    subst q r. unfold new_location, new_location_even, new_location_odd.
    destruct (Z.even (Z.pos m)); reflexivity. }
  rewrite Hcore. destruct s; vm_compute; reflexivity.
Qed.

Lemma shr_1_nonneg (mrs : shr_record) : (0 <= shr_m mrs)%Z -> (0 <= shr_m (shr_1 mrs))%Z.
Proof.
  destruct mrs as [m r s]. cbn [shr_m]. intros Hm. unfold shr_1.
  destruct m as [| [p | p |] | p]; cbn [shr_m]; lia.
Qed.

Lemma iter_shr_1_nonneg (n : positive) (mrs : shr_record) :
  (0 <= shr_m mrs)%Z -> (0 <= shr_m (iter_pos shr_1 n mrs))%Z.
Proof.
  revert mrs. induction n as [n IH | n IH |]; intros mrs Hm; cbn [iter_pos].
  - apply IH, IH, shr_1_nonneg, Hm.
  - apply IH, IH, Hm.
  - apply shr_1_nonneg, Hm.
Qed.

Lemma shr_fexp_nonneg (m e : Z) (l : location) :
  (0 <= m)%Z -> (0 <= shr_m (fst (shr_fexp Num.prec Num.emax m e l)))%Z.
Proof.
  intros Hm. unfold shr_fexp, shr.
  assert (H0 : (0 <= shr_m (shr_record_of_loc m l))%Z).
  { destruct l as [| []]; exact Hm. }
  destruct (fexp Num.prec Num.emax (Zdigits2 m + e) - e)%Z; cbn [fst]; try exact H0.
  now apply iter_shr_1_nonneg.
Qed.

(** Rounding a non-negative mantissa never gives NaN. *)
Lemma round_aux_not_NaN (s : bool) (m e : Z) (l : location) :
  (0 <= m)%Z -> binary_round_aux Num.prec Num.emax s m e l <> S754_nan.
Proof.
  intros Hm. unfold binary_round_aux.
  pose proof (shr_fexp_nonneg m e l Hm) as H1.
  destruct (shr_fexp Num.prec Num.emax m e l) as [mrs' e']. cbn [fst] in H1.
  set (m1 := round_nearest_even (shr_m mrs') (loc_of_shr_record mrs')).
  assert (Hm1 : (0 <= m1)%Z).
  { subst m1. unfold round_nearest_even.
    destruct (loc_of_shr_record mrs') as [| []]; try lia.
    destruct (Z.even (shr_m mrs')); lia. }
  pose proof (shr_fexp_nonneg m1 e' loc_Exact Hm1) as H2.
  destruct (shr_fexp Num.prec Num.emax m1 e' loc_Exact) as [mrs'' e'']. cbn [fst] in H2.
  destruct (shr_m mrs'') as [| p | p]; try lia; try discriminate.
  destruct (e'' <=? Num.emax - Num.prec)%Z; discriminate.
Qed.

Lemma div_finite_not_NaN (sx sy : bool) (mx my : positive) (ex ey : Z) :
  Num.div (S754_finite sx mx ex) (S754_finite sy my ey) <> Num.NaN.
Proof.
  unfold Num.div, SFdiv, SFdiv_core_binary. cbv zeta.
  set (sh := (ex - ey - _)%Z).
  set (m' := match sh with Z0 => Z.pos mx | Z.pos _ => Z.shiftl (Z.pos mx) sh | Z.neg _ => 0%Z end).
  assert (Hm' : (0 <= m')%Z).
  { subst m'. destruct sh; try lia. apply Z.shiftl_nonneg. lia. }
  pose proof (Z.div_pos m' (Z.pos my) Hm' ltac:(lia)) as Hq.
  unfold Z.div in Hq.
  destruct (Z.div_eucl m' (Z.pos my)) as [q r]. cbn [fst] in Hq.
  now apply round_aux_not_NaN.
Qed.

Lemma ofNat_zero : Num.ofNat 0 = S754_zero false.
Proof. reflexivity. Qed.

Lemma ofNat_pos_finite (n : nat) :
  0 < n -> (Z.of_nat n < 2 ^ 53)%Z -> exists m e, Num.ofNat n = S754_finite false m e.
Proof.
  intros Hpos Hbound. unfold Num.ofNat.
  destruct (Z.of_nat n) as [| p | p] eqn:Hn; try lia.
  now apply ofZ_pos_finite.
Qed.

Lemma add_NaN_r (x : Num.number) : Num.add x Num.NaN = Num.NaN.
Proof. destruct x; reflexivity. Qed.

Lemma fold_add_NaN (l : list Num.number) : fold_left Num.add l Num.NaN = Num.NaN.
Proof. induction l as [| x l IH]; [reflexivity | exact IH]. Qed.

Lemma fold_add_with_NaN (l : list Num.number) (acc : Num.number) :
  In Num.NaN l -> fold_left Num.add l acc = Num.NaN.
Proof.
  revert acc. induction l as [| x l IH]; intros acc Hl; [destruct Hl |].
  destruct Hl as [Hx | Hin]; cbn [fold_left].
  - subst x. rewrite add_NaN_r. apply fold_add_NaN.
  - now apply IH.
Qed.

(** One NaN among the similarities makes their mean NaN. *)
Lemma average_with_NaN (similarities : list Num.number) :
  In Num.NaN similarities -> average similarities = Num.NaN.
Proof.
  intros Hin. unfold average. now rewrite fold_add_with_NaN.
Qed.

End FloatFacts.

(** ** The similarity of two texts, continued *)

Section SimilarityFacts.

Lemma make_nil_iff (items : list string) : JSSet.make items = [] <-> items = [].
Proof.
  split; [| intros ->; reflexivity].
  intros Hnil. destruct items as [| x items]; [reflexivity | exfalso].
  assert (Hx : In x (JSSet.make (x :: items))) by (apply make_In; now left).
  rewrite Hnil in Hx. destruct Hx.
Qed.

Lemma union_nil_iff (a b : list string) : union a b = [] <-> a = [] /\ b = [].
Proof.
  unfold union. rewrite make_nil_iff. split.
  - intros H. now apply app_eq_nil in H.
  - intros [-> ->]. reflexivity.
Qed.

Lemma intersection_le_union (a b : list string) :
  JSSet.size (intersection a b) <= JSSet.size (union a b).
Proof.
  unfold JSSet.size, intersection, union.
  apply NoDup_incl_length; [apply make_NoDup |].
  intros x Hx. rewrite make_In, filter_In in Hx.
  rewrite make_In, in_app_iff. now left.
Qed.

Lemma falsy_false (s : string) : s <> EmptyString -> falsy s = false.
Proof. destruct s; [congruence | reflexivity]. Qed.

Lemma similarity_quotient (a b : string) :
  a <> EmptyString -> b <> EmptyString ->
  calculateTextSimilarity a b
  = Num.div (Num.ofNat (JSSet.size (intersection (wordSet a) (wordSet b))))
            (Num.ofNat (JSSet.size (union (wordSet a) (wordSet b)))).
Proof.
  intros Ha Hb. unfold calculateTextSimilarity.
  now rewrite (falsy_false a Ha), (falsy_false b Hb).
Qed.

Lemma size_zero_nil (s : list string) : JSSet.size s = 0 <-> s = [].
Proof. unfold JSSet.size. split; [apply length_zero_iff_nil | intros ->; reflexivity]. Qed.

Lemma lowerChar_idempotent (c : ascii) : Str.lowerChar (Str.lowerChar c) = Str.lowerChar c.
Proof.
  pose proof (nat_ascii_bounded c) as Hbound.
  assert (Hcases : Str.lowerChar c = c
                   \/ (Str.lowerChar c = ascii_of_nat (nat_of_ascii c + 32)
                       /\ (65 <= nat_of_ascii c <= 90
                           \/ (192 <= nat_of_ascii c <= 222 /\ nat_of_ascii c <> 215)))).
  { unfold Str.lowerChar.
    destruct (Nat.leb_spec 65 (nat_of_ascii c)); destruct (Nat.leb_spec (nat_of_ascii c) 90);
      destruct (Nat.leb_spec 192 (nat_of_ascii c));
      destruct (Nat.leb_spec (nat_of_ascii c) 222);
      destruct (Nat.eqb_spec (nat_of_ascii c) 215);
      cbn [andb orb negb]; auto; right; split; auto; lia. }
  destruct Hcases as [Hsame | [Hshift Hrange]].
  - now rewrite !Hsame.
  - rewrite Hshift. unfold Str.lowerChar. rewrite nat_ascii_embedding by lia.
    destruct (Nat.leb_spec 65 (nat_of_ascii c + 32));
      destruct (Nat.leb_spec (nat_of_ascii c + 32) 90);
      destruct (Nat.leb_spec 192 (nat_of_ascii c + 32));
      destruct (Nat.leb_spec (nat_of_ascii c + 32) 222);
      destruct (Nat.eqb_spec (nat_of_ascii c + 32) 215);
      cbn [andb orb negb]; try reflexivity; lia.
Qed.

Lemma toLowerCase_idempotent (s : string) :
  Str.toLowerCase (Str.toLowerCase s) = Str.toLowerCase s.
Proof.
  induction s as [| c r IH]; [reflexivity |].
  cbn [Str.toLowerCase]. now rewrite lowerChar_idempotent, IH.
Qed.

Lemma wordSet_toLowerCase (s : string) : wordSet (Str.toLowerCase s) = wordSet s.
Proof. unfold wordSet. now rewrite toLowerCase_idempotent. Qed.

Lemma falsy_toLowerCase (s : string) : falsy (Str.toLowerCase s) = falsy s.
Proof. destruct s; reflexivity. Qed.

End SimilarityFacts.

(** X1. The similarity of two non-empty texts is NaN exactly when neither
    has a word of three characters or more (the sets are far below 2^53
    words). *)
Theorem similarity_NaN_iff (a b : string) :
  a <> EmptyString -> b <> EmptyString ->
  (Z.of_nat (JSSet.size (union (wordSet a) (wordSet b))) < 2 ^ 53)%Z ->
  calculateTextSimilarity a b = Num.NaN <-> wordSet a = [] /\ wordSet b = [].
Proof.
  intros Ha Hb Hbound. rewrite (similarity_quotient a b Ha Hb).
  pose proof (intersection_le_union (wordSet a) (wordSet b)) as Hle.
  rewrite <- union_nil_iff, <- size_zero_nil.
  set (i := JSSet.size (intersection (wordSet a) (wordSet b))) in *.
  set (u := JSSet.size (union (wordSet a) (wordSet b))) in *.
  split.
  - intros HNaN. destruct u as [| u']; [reflexivity | exfalso].
    destruct (ofNat_pos_finite (S u') ltac:(lia) Hbound) as (mu & eu & Hu).
    rewrite Hu in HNaN. destruct i as [| i'].
    + rewrite ofNat_zero in HNaN. discriminate.
    + destruct (ofNat_pos_finite (S i') ltac:(lia) ltac:(lia)) as (mi & ei & Hi).
      rewrite Hi in HNaN. now apply div_finite_not_NaN in HNaN.
  - intros Hu. rewrite Hu in *. assert (Hi : i = 0) by lia. rewrite Hi. reflexivity.
Qed.

Lemma similarity_NaN_iff_witness :
  ("hello world" <> EmptyString /\ "hi" <> EmptyString)
  /\ calculateTextSimilarity "hello world" "hi" <> Num.NaN.
Proof.
  assert (Ha : "hello world" <> EmptyString) by discriminate.
  assert (Hb : "hi" <> EmptyString) by discriminate.
  split; [split; assumption |].
  intros HNaN.
  apply (similarity_NaN_iff _ _ Ha Hb) in HNaN; [| vm_compute; reflexivity].
  destruct HNaN as [Hw _]. vm_compute in Hw. discriminate.
Defined.

(** X2. Two non-empty texts with the same words of three characters or
    more, at least one such word, in whatever order and however often
    repeated, have similarity exactly 1. *)
Theorem same_words_similarity_one (a b : string) :
  a <> EmptyString -> b <> EmptyString ->
  (forall w, In w (wordSet a) <-> In w (wordSet b)) ->
  wordSet a <> [] ->
  (Z.of_nat (JSSet.size (union (wordSet a) (wordSet b))) < 2 ^ 53)%Z ->
  calculateTextSimilarity a b = Num.ofZ 1.
Proof.
  intros Ha Hb Hsame Hword Hbound. rewrite (similarity_quotient a b Ha Hb).
  assert (Hiu : JSSet.size (intersection (wordSet a) (wordSet b))
                = JSSet.size (union (wordSet a) (wordSet b))).
  { apply make_size_ext. intros x.
    rewrite filter_In, has_In, in_app_iff. specialize (Hsame x). tauto. }
  rewrite Hiu.
  destruct (JSSet.size (union (wordSet a) (wordSet b))) as [| u'] eqn:Hu.
  - apply size_zero_nil, union_nil_iff in Hu. destruct Hu as [Hnil _]. contradiction.
  - destruct (ofNat_pos_finite (S u') ltac:(lia) Hbound) as (m & e & Hfin).
    rewrite Hfin. apply div_same.
Qed.

Lemma same_words_similarity_one_witness :
  calculateTextSimilarity "Beta alpha  gamma" "gamma BETA alpha alpha" = Num.ofZ 1.
Proof.
  apply same_words_similarity_one; try discriminate.
  - intros w. vm_compute. tauto.
  - vm_compute. reflexivity.
Defined.

(** X3. Two non-empty texts without a common word of three characters or
    more, of which at least one has such a word, have similarity exactly
    0. *)
Theorem disjoint_words_similarity_zero (a b : string) :
  a <> EmptyString -> b <> EmptyString ->
  (forall w, In w (wordSet a) -> ~ In w (wordSet b)) ->
  wordSet a <> [] \/ wordSet b <> [] ->
  (Z.of_nat (JSSet.size (union (wordSet a) (wordSet b))) < 2 ^ 53)%Z ->
  calculateTextSimilarity a b = Num.ofZ 0.
Proof.
  intros Ha Hb Hdisjoint Hword Hbound. rewrite (similarity_quotient a b Ha Hb).
  assert (Hi : JSSet.size (intersection (wordSet a) (wordSet b)) = 0).
  { apply size_zero_nil. unfold intersection. apply make_nil_iff.
    destruct (filter _ (wordSet a)) as [| x l] eqn:Hf; [reflexivity | exfalso].
    assert (Hx : In x (filter (fun x => JSSet.has (wordSet b) x) (wordSet a))).
    { rewrite Hf. now left. }
    apply filter_In in Hx. destruct Hx as [Hxa Hxb]. apply has_In in Hxb.
    exact (Hdisjoint x Hxa Hxb). }
  rewrite Hi, ofNat_zero.
  destruct (JSSet.size (union (wordSet a) (wordSet b))) as [| u'] eqn:Hu.
  - apply size_zero_nil, union_nil_iff in Hu. destruct Hu as [Hna Hnb].
    destruct Hword; contradiction.
  - destruct (ofNat_pos_finite (S u') ltac:(lia) Hbound) as (m & e & Hfin).
    rewrite Hfin. reflexivity.
Qed.

Lemma disjoint_words_similarity_zero_witness :
  calculateTextSimilarity "red green blue" "no" = Num.ofZ 0.
Proof.
  apply disjoint_words_similarity_zero; try discriminate.
  - intros w Hw Hb. vm_compute in Hb. exact Hb.
  - left. vm_compute. discriminate.
  - vm_compute. reflexivity.
Defined.

(** The letters and the white space above the 7-bit range: U+00C9 and
    U+00E9 are one letter in two cases, U+00A0 parts two words. *)
Example case_above_127 :
  calculateTextSimilarity (String (ascii_of_nat 201) "COLE normale")
                          (String (ascii_of_nat 233) "cole NORMALE") = Num.ofZ 1.
Proof. vm_compute. reflexivity. Qed.

Example no_break_space_parts_words :
  wordSet ("alpha" ++ String (ascii_of_nat 160) "beta") = ["alpha"; "beta"].
Proof. vm_compute. reflexivity. Qed.

(** X4. The similarity does not see the case of the letters, accented ones
    included: lower-casing either text leaves it unchanged. *)
Theorem similarity_ignores_case (a b : string) :
  calculateTextSimilarity (Str.toLowerCase a) b = calculateTextSimilarity a b
  /\ calculateTextSimilarity a (Str.toLowerCase b) = calculateTextSimilarity a b.
Proof.
  unfold calculateTextSimilarity.
  now rewrite !falsy_toLowerCase, !wordSet_toLowerCase.
Qed.

(** X5. The similarity to any third text sees only which words of three
    characters or more a non-empty text has, not their order or number. *)
Theorem similarity_depends_on_words (a a' b : string) :
  a <> EmptyString -> a' <> EmptyString ->
  (forall w, In w (wordSet a) <-> In w (wordSet a')) ->
  calculateTextSimilarity a b = calculateTextSimilarity a' b.
Proof.
  intros Ha Ha' Hsame. unfold calculateTextSimilarity.
  rewrite (falsy_false a Ha), (falsy_false a' Ha'). cbn [orb].
  destruct (falsy b); [reflexivity |].
  cbv zeta. f_equal; f_equal.
  - apply make_size_ext. intros x. rewrite !filter_In. specialize (Hsame x). tauto.
  - apply make_size_ext. intros x. rewrite !in_app_iff. specialize (Hsame x). tauto.
Qed.

Lemma similarity_depends_on_words_witness :
  calculateTextSimilarity "one two three two" "three four"
  = calculateTextSimilarity "three  two one" "three four".
Proof.
  apply similarity_depends_on_words; try discriminate.
  intros w. vm_compute. tauto.
Defined.

(** ** Splitting: sentences and words *)

Section Splitting.

Variable sep : ascii -> bool.

Lemma splitRuns_not_nil (inrun : bool) (s : string) : Str.splitRuns sep inrun s <> [].
Proof.
  revert inrun. induction s as [| c r IH]; intros inrun; cbn [Str.splitRuns].
  - discriminate.
  - destruct (sep c).
    + destruct inrun; [apply IH | discriminate].
    + destruct (Str.splitRuns sep false r); discriminate.
Qed.

(** Outside a run of separators the first piece is a prefix of the text. *)
Lemma splitRuns_head (s piece : string) (more : list string) :
  Str.splitRuns sep false s = piece :: more -> exists rest, s = piece ++ rest.
Proof.
  revert piece more. induction s as [| c r IH]; intros piece more; cbn [Str.splitRuns].
  - intros [= <- _]. now exists EmptyString.
  - destruct (sep c).
    + intros [= <- _]. now exists (String c r).
    + destruct (Str.splitRuns sep false r) as [| p l] eqn:Hr.
      * intros [= <- _]. now destruct (splitRuns_not_nil false r).
      * intros [= <- _]. destruct (IH p l eq_refl) as [rest ->].
        now exists rest.
Qed.

(** Every piece is a run of consecutive characters of the text. *)
Lemma splitRuns_substring (inrun : bool) (s piece : string) :
  In piece (Str.splitRuns sep inrun s) -> exists before after, s = before ++ piece ++ after.
Proof.
  revert inrun piece. induction s as [| c r IH]; intros inrun piece; cbn [Str.splitRuns].
  - intros [<- | []]. now exists EmptyString, EmptyString.
  - destruct (sep c).
    + assert (Hrec : In piece (Str.splitRuns sep true r) ->
                     exists before after, String c r = before ++ piece ++ after).
      { intros Hin. destruct (IH true piece Hin) as (before & after & ->).
        now exists (String c before), after. }
      destruct inrun; [exact Hrec |].
      intros [<- | Hin]; [now exists EmptyString, (String c r) | now apply Hrec].
    + destruct (Str.splitRuns sep false r) as [| p l] eqn:Hr.
      * intros [<- | []]. now destruct (splitRuns_not_nil false r).
      * intros [<- | Hin].
        -- destruct (splitRuns_head r p l Hr) as [rest ->].
           now exists EmptyString, rest.
        -- destruct (IH false piece) as (before & after & ->).
           { rewrite Hr. now right. }
           now exists (String c before), after.
Qed.

(** No piece holds a separator. *)
Lemma splitRuns_no_separator (inrun : bool) (s piece : string) (c : ascii) :
  In piece (Str.splitRuns sep inrun s) -> In c (chars piece) -> sep c = false.
Proof.
  revert inrun piece. induction s as [| d r IH]; intros inrun piece; cbn [Str.splitRuns].
  - intros [<- | []] [].
  - destruct (sep d) eqn:Hd.
    + destruct inrun; [apply IH |].
      intros [<- | Hin]; [intros [] | now apply (IH true)].
    + destruct (Str.splitRuns sep false r) as [| p l] eqn:Hr.
      * intros [<- | []] [<- | []]. exact Hd.
      * intros [<- | Hin].
        -- intros [<- | Hc]; [exact Hd |].
           apply (IH false p); [rewrite Hr; now left | exact Hc].
        -- apply (IH false piece). rewrite Hr. now right.
Qed.

(** A text without a separator is its own single piece. *)
Lemma splitRuns_whole (s : string) :
  (forall c, In c (chars s) -> sep c = false) -> Str.splitRuns sep false s = [s].
Proof.
  induction s as [| d r IH]; intros Hnone; cbn [Str.splitRuns]; [reflexivity |].
  rewrite (Hnone d) by now left.
  rewrite IH; [reflexivity |].
  intros c Hc. apply Hnone. now right.
Qed.

End Splitting.

Section Words.

Lemma chars_toLowerCase (s : string) (c : ascii) :
  In c (chars (Str.toLowerCase s)) -> Str.lowerChar c = c.
Proof.
  induction s as [| d r IH]; [intros [] |].
  intros [<- | Hc]; [apply lowerChar_idempotent | now apply IH].
Qed.

Lemma chars_app (a b : string) (c : ascii) :
  In c (chars (a ++ b)) <-> In c (chars a) \/ In c (chars b).
Proof.
  induction a as [| d r IH]; cbn; [tauto |]. rewrite IH. tauto.
Qed.

End Words.

(** X6. Every sentence [splitIntoSentences] returns is a run of consecutive
    characters of the text, not trimmed, that holds none of [.], [!], [?]
    and has more than 10 characters once trimmed. *)
Theorem sentences_are_fragments (text sentence : string) :
  In sentence (splitIntoSentences text) ->
  (exists before after, text = before ++ sentence ++ after)
  /\ (forall c, In c (chars sentence) -> Str.isSentenceEnd c = false)
  /\ 10 < String.length (Str.trim sentence).
Proof.
  unfold splitIntoSentences, Str.split. intros Hin.
  apply filter_In in Hin. destruct Hin as [Hpiece Hlen].
  split; [now apply (splitRuns_substring Str.isSentenceEnd false) |].
  split; [intros c; now apply (splitRuns_no_separator Str.isSentenceEnd false text) |].
  now apply Nat.ltb_lt.
Qed.

Lemma sentences_are_fragments_witness :
  In " Use strong passwords" (splitIntoSentences "Stay safe online. Use strong passwords!")
  /\ 10 < String.length (Str.trim " Use strong passwords").
Proof.
  assert (Hin : In " Use strong passwords"
                   (splitIntoSentences "Stay safe online. Use strong passwords!")).
  { vm_compute. right. left. reflexivity. }
  split; [exact Hin |].
  apply (sentences_are_fragments _ _ Hin).
Defined.

(** X7. A text that holds none of [.], [!], [?] is one sentence, the whole
    text as it is, when it has more than 10 characters once trimmed, and
    has no sentence otherwise. *)
Theorem unpunctuated_text_is_one_sentence (text : string) :
  (forall c, In c (chars text) -> Str.isSentenceEnd c = false) ->
  splitIntoSentences text
  = if (10 <? String.length (Str.trim text))%nat then [text] else [].
Proof.
  intros Hnone. unfold splitIntoSentences, Str.split.
  rewrite (splitRuns_whole Str.isSentenceEnd text Hnone). reflexivity.
Qed.

Lemma unpunctuated_text_is_one_sentence_witness :
  splitIntoSentences sevenOfTenOther = [sevenOfTenOther]
  /\ splitIntoSentences "too short" = [].
Proof.
  split.
  - rewrite unpunctuated_text_is_one_sentence; [reflexivity |].
    intros c Hc. vm_compute in Hc.
    repeat (destruct Hc as [<- | Hc]; [reflexivity |]). destruct Hc.
  - rewrite unpunctuated_text_is_one_sentence; [reflexivity |].
    intros c Hc. vm_compute in Hc.
    repeat (destruct Hc as [<- | Hc]; [reflexivity |]). destruct Hc.
Defined.

(** X8. The words a text is compared by are distinct, have at least three
    characters, hold no white space (U+00A0 included) and no upper-case
    letter (A to Z, and U+00C0 to U+00DE but for the sign at U+00D7). *)
Theorem words_are_clean (text : string) :
  NoDup (wordSet text)
  /\ forall word, In word (wordSet text) ->
       3 <= String.length word
       /\ forall c, In c (chars word) ->
            Str.isSpace c = false /\ Str.lowerChar c = c.
Proof.
  split; [apply make_NoDup |].
  intros word Hword. unfold wordSet in Hword.
  apply make_In, filter_In in Hword. destruct Hword as [Hpiece Hlen].
  apply Nat.ltb_lt in Hlen. split; [lia |].
  intros c Hc. split.
  - now apply (splitRuns_no_separator Str.isSpace false (Str.toLowerCase text) word).
  - destruct (splitRuns_substring Str.isSpace false _ _ Hpiece) as (before & after & Heq).
    apply (chars_toLowerCase text). rewrite Heq.
    apply chars_app. right. apply chars_app. now left.
Qed.

(** ** Substrings *)

Section Includes.

Lemma str_app_assoc (a b c : string) : (a ++ b) ++ c = a ++ b ++ c.
Proof. induction a as [| d r IH]; cbn; [reflexivity | now rewrite IH]. Qed.

Lemma prefix_app (needle rest : string) : prefix needle (needle ++ rest) = true.
Proof.
  induction needle as [| c r IH]; cbn; [now destruct rest |].
  destruct (ascii_dec c c); [exact IH | congruence].
Qed.

Lemma prefix_inv (needle hay : string) :
  prefix needle hay = true -> exists rest, hay = needle ++ rest.
Proof.
  revert hay. induction needle as [| c r IH]; intros hay Hp.
  - now exists hay.
  - destruct hay as [| d h]; cbn in Hp; [discriminate |].
    destruct (ascii_dec c d) as [<- | _]; [| discriminate].
    destruct (IH h Hp) as [rest ->]. now exists rest.
Qed.

Lemma includes_intro (before needle after : string) :
  Str.includes (before ++ needle ++ after) needle = true.
Proof.
  induction before as [| c r IH].
  - cbn [append]. destruct (needle ++ after) eqn:Heq; cbn [Str.includes];
      rewrite <- Heq, prefix_app; reflexivity.
  - cbn [append Str.includes]. rewrite IH. apply orb_true_r.
Qed.

Lemma includes_inv (hay needle : string) :
  Str.includes hay needle = true -> exists before after, hay = before ++ needle ++ after.
Proof.
  induction hay as [| c r IH]; cbn [Str.includes]; intros Hin;
    apply orb_true_iff in Hin; destruct Hin as [Hp | Hin]; try discriminate.
  - destruct (prefix_inv _ _ Hp) as [rest ->]. now exists EmptyString, rest.
  - destruct (prefix_inv _ _ Hp) as [rest ->]. now exists EmptyString, rest.
  - destruct (IH Hin) as (before & after & ->). now exists (String c before), after.
Qed.

(** A text that includes a word includes every part of the word. *)
Lemma includes_part (hay a needle b : string) :
  Str.includes hay (a ++ needle ++ b) = true -> Str.includes hay needle = true.
Proof.
  intros Hin. destruct (includes_inv _ _ Hin) as (before & after & ->).
  replace (before ++ (a ++ needle ++ b) ++ after)
    with ((before ++ a) ++ needle ++ (b ++ after)).
  - apply includes_intro.
  - now rewrite !str_app_assoc.
Qed.

End Includes.

(** ** Key points, common themes and disagreements *)

Lemma flat_map_nil_inv {A B : Type} (f : A -> list B) (l : list A) :
  flat_map f l = [] -> forall x, In x l -> f x = [].
Proof.
  induction l as [| a l IH]; intros Hnil x Hx; [destruct Hx |].
  cbn [flat_map] in Hnil. apply app_eq_nil in Hnil. destruct Hnil as [Ha Hl].
  destruct Hx as [<- | Hx]; [exact Ha | now apply IH].
Qed.

(** X9. [extractKeyPoints] returns at most three key points; each is the
    trimmed form of a sentence of the text that is longer than 30 and
    shorter than 200 characters and, in lower case, includes one of the
    indicator words. *)
Theorem key_points_are_indicated (text : string) :
  List.length (extractKeyPoints text) <= 3
  /\ forall point, In point (extractKeyPoints text) ->
       exists sentence indicator,
         In sentence (splitIntoSentences text)
         /\ point = Str.trim sentence
         /\ 30 < String.length sentence /\ String.length sentence < 200
         /\ In indicator indicators
         /\ Str.includes (Str.toLowerCase sentence) indicator = true.
Proof.
  unfold extractKeyPoints. split; [apply firstn_le_length |].
  intros point Hpoint. apply In_firstn in Hpoint.
  apply in_flat_map in Hpoint. destruct Hpoint as [sentence [Hs Hpoint]].
  destruct (existsb _ indicators) eqn:Hind; cbn [andb] in Hpoint; [| destruct Hpoint].
  destruct (30 <? String.length sentence)%nat eqn:Hlo; cbn [andb] in Hpoint;
    [| destruct Hpoint].
  destruct (String.length sentence <? 200)%nat eqn:Hhi; [| destruct Hpoint].
  destruct Hpoint as [<- | []].
  apply existsb_exists in Hind. destruct Hind as [indicator [Hin Hinc]].
  apply Nat.ltb_lt in Hlo, Hhi.
  exists sentence, indicator. repeat split; assumption.
Qed.

Section Themes.

Variable responses : list Valid.t.

Lemma allSentencesOf_In (sentence source : string) :
  In (sentence, source) (allSentencesOf responses) <-> sentenceOf responses sentence source.
Proof.
  unfold allSentencesOf, sentenceOf. rewrite in_flat_map. split.
  - intros [r [Hr Hin]]. apply in_map_iff in Hin. destruct Hin as [s [[= <- <-] Hs]].
    now exists r.
  - intros [r [Hr [<- Hs]]]. exists r. split; [exact Hr |].
    apply in_map_iff. now exists sentence.
Qed.

Lemma themeStep_keeps (st : list string * list string) (current : string * string) :
  In current (allSentencesOf responses) ->
  (forall theme, In theme (fst st) -> themeFrom responses theme) ->
  forall theme, In theme (fst (themeStep (allSentencesOf responses) st current)) ->
    themeFrom responses theme.
Proof.
  intros Hcurrent Hst theme. destruct st as [themes processed]. unfold themeStep.
  destruct (JSSet.has processed (fst current)); [apply Hst |].
  destruct (filter _ (allSentencesOf responses)) as [| other similar] eqn:Hsim;
    [apply Hst |].
  cbn [List.length Nat.ltb Nat.leb fst]. intros Hin. apply in_app_or in Hin.
  destruct Hin as [Hold | [<- | []]]; [now apply Hst |].
  assert (Hother : In other (filter (fun other =>
            negb (String.eqb (snd other) (snd current))
            && Num.gt (calculateTextSimilarity (fst current) (fst other)) Num.lit_0_6)
            (allSentencesOf responses))).
  { rewrite Hsim. now left. }
  apply filter_In in Hother. destruct Hother as [Hall Hcond].
  apply andb_true_iff in Hcond. destruct Hcond as [Hsrc Hgt].
  apply negb_true_iff, String.eqb_neq in Hsrc.
  destruct current as [sentence source], other as [o osource]. cbn [fst snd] in *.
  exists sentence, source, o, osource.
  repeat split; try assumption; now apply allSentencesOf_In.
Qed.

Lemma fold_themeStep_keeps (sentences : list (string * string))
    (st : list string * list string) :
  incl sentences (allSentencesOf responses) ->
  (forall theme, In theme (fst st) -> themeFrom responses theme) ->
  forall theme,
    In theme (fst (fold_left (themeStep (allSentencesOf responses)) sentences st)) ->
    themeFrom responses theme.
Proof.
  revert st. induction sentences as [| current sentences IH]; intros st Hincl Hst.
  - exact Hst.
  - cbn [fold_left]. apply IH.
    + intros x Hx. apply Hincl. now right.
    + apply themeStep_keeps; [apply Hincl; now left | exact Hst].
Qed.

End Themes.

Lemma findCommonThemes_from (responses : list Valid.t) (theme : string) :
  In theme (findCommonThemes responses) -> themeFrom responses theme.
Proof.
  unfold findCommonThemes. intros Htheme. apply In_firstn in Htheme.
  apply (fold_themeStep_keeps responses _ ([], [])) in Htheme.
  - exact Htheme.
  - apply incl_refl.
  - intros t [].
Qed.

(** X10. [findCommonThemes] returns at most four themes; each is the
    trimmed form of a sentence of one response for which some sentence of a
    response with another source has a similarity above 0.6. *)
Theorem themes_are_shared (responses : list Valid.t) :
  List.length (findCommonThemes responses) <= 4
  /\ forall theme, In theme (findCommonThemes responses) ->
       exists sentence source other otherSource,
         sentenceOf responses sentence source
         /\ sentenceOf responses other otherSource
         /\ otherSource <> source
         /\ theme = Str.trim sentence
         /\ Num.gt (calculateTextSimilarity sentence other) Num.lit_0_6 = true.
Proof.
  split; [apply firstn_le_length |].
  intros theme Htheme. exact (findCommonThemes_from responses theme Htheme).
Qed.

Lemma findDisagreements_from (responses : list Valid.t) (statement : string) :
  In statement (findDisagreements responses) ->
  exists word1 word2 r1 r2,
    In (word1, word2) contrastPairs
    /\ In r1 responses /\ In r2 responses
    /\ Str.includes (Str.toLowerCase (Valid.text r1)) word1 = true
    /\ Str.includes (Str.toLowerCase (Valid.text r2)) word2 = true.
Proof.
  unfold findDisagreements.
  intros Hin. apply In_firstn in Hin.
  apply in_flat_map in Hin. destruct Hin as [[word1 word2] [Hpair Hin]].
  destruct (sourcesWith responses word1) as [| s1 l1] eqn:H1; [destruct Hin |].
  destruct (sourcesWith responses word2) as [| s2 l2] eqn:H2; [destruct Hin |].
  assert (Hs1 : In s1 (sourcesWith responses word1)) by (rewrite H1; now left).
  assert (Hs2 : In s2 (sourcesWith responses word2)) by (rewrite H2; now left).
  unfold sourcesWith in Hs1, Hs2.
  apply in_map_iff in Hs1, Hs2.
  destruct Hs1 as [r1 [_ Hr1]], Hs2 as [r2 [_ Hr2]].
  apply filter_In in Hr1, Hr2.
  exists word1, word2, r1, r2. tauto.
Qed.


(** X12. One response is enough for a disagreement: when the lower-cased
    text of a response includes "shouldn't" or "disagree", it includes
    "should" or "agree" as well, and [findDisagreements] reports at least
    one statement, whatever the other responses say. *)
Theorem one_response_disagrees_with_itself (responses : list Valid.t) (r : Valid.t) :
  In r responses ->
  Str.includes (Str.toLowerCase (Valid.text r)) "shouldn't" = true
  \/ Str.includes (Str.toLowerCase (Valid.text r)) "disagree" = true ->
  1 <= List.length (findDisagreements responses).
Proof.
  intros Hr Hword.
  assert (Hpair : exists word1 word2,
            In (word1, word2) contrastPairs
            /\ Str.includes (Str.toLowerCase (Valid.text r)) word1 = true
            /\ Str.includes (Str.toLowerCase (Valid.text r)) word2 = true).
  { destruct Hword as [Hw | Hw].
    - exists "should", "shouldn't". split; [cbn; tauto |]. split; [| exact Hw].
      apply (includes_part _ EmptyString "should" "n't"). exact Hw.
    - exists "agree", "disagree". split; [cbn; tauto |]. split; [| exact Hw].
      apply (includes_part _ "dis" "agree" EmptyString). exact Hw. }
  destruct Hpair as (word1 & word2 & Hin & H1 & H2).
  assert (Hsrc : forall word, Str.includes (Str.toLowerCase (Valid.text r)) word = true ->
                  sourcesWith responses word <> []).
  { intros word Hw Hnil.
    assert (Hs : In (Valid.source r) (sourcesWith responses word)).
    { unfold sourcesWith. apply in_map. apply filter_In. now split. }
    rewrite Hnil in Hs. destruct Hs. }
  pose proof (Hsrc word1 H1) as Hn1. pose proof (Hsrc word2 H2) as Hn2.
  unfold findDisagreements.
  destruct (flat_map _ contrastPairs) as [| d l] eqn:Hflat; [exfalso | cbn; lia].
  pose proof (flat_map_nil_inv _ _ Hflat (word1, word2) Hin) as Hnone.
  cbv beta iota zeta in Hnone.
  destruct (sourcesWith responses word1); [contradiction |].
  destruct (sourcesWith responses word2); [contradiction |].
  discriminate Hnone.
Qed.

Lemma one_response_disagrees_with_itself_witness :
  1 <= List.length
         (findDisagreements [Valid.make "Openai" "Experts disagree on this point." 31]).
Proof.
  apply (one_response_disagrees_with_itself _
           (Valid.make "Openai" "Experts disagree on this point." 31)).
  - now left.
  - right. vm_compute. reflexivity.
Defined.

(** ** The outcomes of the selector *)

(** X13. When no entry of the input holds a string (every call failed), the
    result is the fixed error result: score 0, approach "error", no
    source. *)
Theorem no_valid_response (input : list (string * response)) :
  stringEntries input = [] ->
  synthesizeResponses input
  = {| confidence := "No Valid Responses";
       confidenceScore := Num.ofZ 0;
       synthesizedAnswer := "All AI services failed to provide valid responses.";
       approach := "error";
       sourcesUsed := [];
       reasoning := "No successful responses received" |}.
Proof.
  intros Hnone. unfold synthesizeResponses.
  rewrite valid_of_stringEntries, Hnone. reflexivity.
Qed.

Lemma no_valid_response_witness :
  let input := [("openai", Failure true "OpenAI timeout" "OpenAI");
                ("google", Failure true "Google AI timeout" "Google")] in
  stringEntries input = [] /\ approach (synthesizeResponses input) = "error".
Proof.
  split; [reflexivity |].
  rewrite no_valid_response; reflexivity.
Defined.

(** X14. The entries of failed calls, their messages included, have no
    part in the result: it is the result on the string entries alone. *)
Theorem failed_entries_do_not_matter (input : list (string * response)) :
  synthesizeResponses input = synthesizeResponses (stringEntries input).
Proof.
  unfold synthesizeResponses. now rewrite (valid_of_stringEntries input).
Qed.

(** X15. The approach tells how many sources were used: "error" exactly
    when none, "single" exactly when one, and one of "consensus",
    "balanced", "comparative" exactly when two or more. *)
Theorem approach_counts_sources (input : list (string * response)) :
  let result := synthesizeResponses input in
  (approach result = "error" <-> List.length (sourcesUsed result) = 0)
  /\ (approach result = "single" <-> List.length (sourcesUsed result) = 1)
  /\ (approach result = "consensus" \/ approach result = "balanced"
      \/ approach result = "comparative" <-> 2 <= List.length (sourcesUsed result)).
Proof.
  unfold synthesizeResponses.
  destruct (validResponsesOf input) as [| first [| second rest]].
  - cbn. repeat split; intros; try reflexivity; try discriminate; try lia.
    destruct H as [H | [H | H]]; discriminate.
  - cbn. repeat split; intros; try reflexivity; try discriminate; try lia.
    destruct H as [H | [H | H]]; discriminate.
  - cbv zeta.
    destruct (Num.ge _ Num.lit_0_7); [| destruct (Num.ge _ Num.lit_0_3)];
      cbn [approach sourcesUsed map List.length];
      (repeat split; intros; try discriminate; try lia; tauto).
Qed.

(** X16. Two valid responses without a word of three characters are enough
    to spoil the mean: whatever the other responses say, the mean is NaN,
    the comparative branch is taken and the score is NaN. *)
Theorem short_pair_spoils_the_mean (input : list (string * response))
    (l1 l2 l3 : list Valid.t) (a b : Valid.t) :
  validResponsesOf input = (l1 ++ a :: l2 ++ b :: l3)%list ->
  Valid.text a <> EmptyString -> Valid.text b <> EmptyString ->
  wordSet (Valid.text a) = [] -> wordSet (Valid.text b) = [] ->
  avgSimilarityOf (validResponsesOf input) = Num.NaN
  /\ approach (synthesizeResponses input) = "comparative"
  /\ confidence (synthesizeResponses input) = "Diverse Approaches"
  /\ confidenceScore (synthesizeResponses input) = Num.NaN.
Proof.
  intros Hsplit Ha Hb Hwa Hwb.
  assert (Hsim : calculateTextSimilarity (Valid.text a) (Valid.text b) = Num.NaN).
  { rewrite (similarity_quotient _ _ Ha Hb), Hwa, Hwb. reflexivity. }
  assert (Havg : avgSimilarityOf (validResponsesOf input) = Num.NaN).
  { unfold avgSimilarityOf. apply average_with_NaN.
    rewrite Hsplit, <- Hsim. apply similaritiesOf_pair. }
  split; [exact Havg |].
  assert (Hlen : 2 <= List.length (validResponsesOf input)).
  { rewrite Hsplit, length_app. cbn [List.length]. rewrite length_app. cbn [List.length]. lia. }
  revert Havg. unfold synthesizeResponses.
  destruct (validResponsesOf input) as [| first [| second rest]];
    [cbn in Hlen; lia | cbn in Hlen; lia |].
  cbv zeta. intros ->. repeat split.
Qed.

Lemma short_pair_spoils_the_mean_witness :
  approach (synthesizeResponses shortAndLong) = "comparative"
  /\ confidenceScore (synthesizeResponses shortAndLong) = Num.NaN.
Proof.
  destruct (short_pair_spoils_the_mean shortAndLong []
              [Valid.make "Anthropic" "The answer to the question is forty-two, as computed." 53]
              [] (Valid.make "Openai" "42" 2) (Valid.make "Google" "ok" 2))
    as (_ & Happroach & _ & Hscore);
    try reflexivity; try discriminate.
  split; assumption.
Defined.

(** X17. The balanced answer can hold nothing of any response: when the
    mean is in the middle tier, no two sentences of responses with
    different sources have a similarity above 0.6 and no response includes
    the first word of a contrast pair, the answer is its heading alone. *)
Theorem balanced_answer_can_be_bare (input : list (string * response)) :
  let validResponses := validResponsesOf input in
  2 <= List.length validResponses ->
  Num.ge (avgSimilarityOf validResponses) Num.lit_0_7 = false ->
  Num.ge (avgSimilarityOf validResponses) Num.lit_0_3 = true ->
  (forall sentence source other otherSource,
     sentenceOf validResponses sentence source ->
     sentenceOf validResponses other otherSource ->
     otherSource <> source ->
     Num.gt (calculateTextSimilarity sentence other) Num.lit_0_6 = false) ->
  (forall r word1 word2, In r validResponses -> In (word1, word2) contrastPairs ->
     Str.includes (Str.toLowerCase (Valid.text r)) word1 = false) ->
  approach (synthesizeResponses input) = "balanced"
  /\ synthesizedAnswer (synthesizeResponses input) = balancedHeader.
Proof.
  intros validResponses Hlen Hhigh Hmid Hsentences Hwords.
  assert (Hthemes : findCommonThemes validResponses = []).
  { destruct (findCommonThemes validResponses) as [| theme l] eqn:Hf; [reflexivity |].
    destruct (findCommonThemes_from validResponses theme)
      as (s & src & o & osrc & Hs & Ho & Hneq & _ & Hgt).
    { rewrite Hf. now left. }
    rewrite (Hsentences s src o osrc Hs Ho Hneq) in Hgt. discriminate. }
  assert (Hdis : findDisagreements validResponses = []).
  { destruct (findDisagreements validResponses) as [| d l] eqn:Hf; [reflexivity |].
    destruct (findDisagreements_from validResponses d)
      as (w1 & w2 & r1 & r2 & Hpair & Hr1 & _ & Hinc & _).
    { rewrite Hf. now left. }
    rewrite (Hwords r1 w1 w2 Hr1 Hpair) in Hinc. discriminate. }
  subst validResponses. revert Hhigh Hmid Hthemes Hdis. unfold synthesizeResponses.
  destruct (validResponsesOf input) as [| first [| second rest]];
    [cbn in Hlen; lia | cbn in Hlen; lia |].
  cbv zeta. intros -> -> Hthemes Hdis.
  cbn [approach synthesizedAnswer]. rewrite Hthemes, Hdis. split; reflexivity.
Qed.

Lemma balanced_answer_can_be_bare_witness :
  2 <= List.length (validResponsesOf halfShared)
  /\ approach (synthesizeResponses halfShared) = "balanced"
  /\ synthesizedAnswer (synthesizeResponses halfShared) = balancedHeader.
Proof.
  assert (Hlen : 2 <= List.length (validResponsesOf halfShared)) by (vm_compute; lia).
  split; [exact Hlen |].
  apply (balanced_answer_can_be_bare halfShared Hlen).
  - vm_compute. reflexivity.
  - vm_compute. reflexivity.
  - intros sentence source other otherSource
      (r & Hr & <- & Hs) (r' & Hr' & <- & Hs') Hneq.
    destruct Hr as [<- | [<- | []]]; destruct Hr' as [<- | [<- | []]];
      vm_compute in Hs, Hs';
      destruct Hs as [<- | []]; destruct Hs' as [<- | []];
      try (vm_compute; reflexivity);
      exfalso; apply Hneq; reflexivity.
  - intros r word1 word2 Hr Hpair.
    destruct Hr as [<- | [<- | []]];
      repeat (destruct Hpair as [[= <- <-] | Hpair]; [vm_compute; reflexivity |]);
      destruct Hpair.
Defined.

Lemma validResponsesOf_rev (input : list (string * response)) :
  validResponsesOf (rev input) = rev (validResponsesOf input).
Proof.
  unfold validResponsesOf.
  induction input as [| [source r] input IH]; [reflexivity |].
  cbn [rev flat_map]. rewrite flat_map_app, IH, rev_app_distr.
  cbn [flat_map]. rewrite app_nil_r.
  f_equal. unfold validEntry.
  destruct (asString r); [| reflexivity].
  destruct (negb (errorOf r)); reflexivity.
Qed.

(** X29. The sources follow the order in which the entries of the input are
    enumerated: on the same entries in the reverse order [sourcesUsed] is
    reversed, so two objects with the same keys and values, filled in
    different orders, do not give the same result. *)
Theorem sources_follow_the_order_of_entries :
  (forall input : list (string * response),
     sourcesUsed (synthesizeResponses (rev input))
     = rev (sourcesUsed (synthesizeResponses input)))
  /\ sourcesUsed (synthesizeResponses sevenOfTen) = ["Openai"; "Google"]
  /\ sourcesUsed (synthesizeResponses (rev sevenOfTen)) = ["Google"; "Openai"].
Proof.
  split.
  - intros input. rewrite !sourcesUsed_valid, validResponsesOf_rev. apply map_rev.
  - split; vm_compute; reflexivity.
Qed.

(** ** The route of the original server *)

Section Route.

Lemma trim_blank_iff (text : string) :
  (String.length (Str.trim text) =? 0)%nat = true <-> Str.trim text = EmptyString.
Proof.
  rewrite Nat.eqb_eq. destruct (Str.trim text); cbn; split; congruence.
Qed.

Lemma trim_full_truthy (text : string) :
  Str.trim text <> EmptyString -> Server.truthy (Server.JString text) = true.
Proof. destruct text; [intros H; now destruct H | reflexivity]. Qed.

Lemma accepted (text : string) (results : Server.settled * Server.settled * Server.settled)
    (processingTime : Z) (now : string) :
  Str.trim text <> EmptyString -> String.length text <= 2000 ->
  Server.aggregate (Some (Server.JString text)) results processingTime now
  = {| Server.status := 200;
       Server.json := Server.AggregateBody
         {| Server.prompt := text;
            Server.synthesis := synthesizeResponses (Server.individualResponsesOf results);
            Server.individualResponses := Server.individualResponsesOf results;
            Server.metadata :=
              {| Server.processingTimeMs := processingTime;
                 Server.timestamp := now;
                 Server.totalSources :=
                   List.length (Server.individualResponsesOf results);
                 Server.successfulSources :=
                   List.length (sourcesUsed (synthesizeResponses
                                               (Server.individualResponsesOf results))) |} |} |}.
Proof.
  intros Htrim Hlen. unfold Server.aggregate.
  rewrite (trim_full_truthy text Htrim). cbn [negb].
  destruct (String.length (Str.trim text) =? 0)%nat eqn:Hblank.
  - apply trim_blank_iff in Hblank. contradiction.
  - destruct (Nat.ltb_spec 2000 (String.length text)); [lia | reflexivity].
Qed.

(** The three ways the route answers a prompt that is a string. *)
Lemma string_prompt (text : string)
    (results : Server.settled * Server.settled * Server.settled)
    (processingTime : Z) (now : string) :
  let reply := Server.aggregate (Some (Server.JString text)) results processingTime now in
  (Str.trim text <> EmptyString /\ String.length text <= 2000 /\ Server.status reply = 200)
  \/ ((Str.trim text = EmptyString \/ 2000 < String.length text)
      /\ Server.status reply = 400
      /\ exists error, Server.json reply = Server.ErrorBody error).
Proof.
  cbv zeta.
  destruct (string_dec (Str.trim text) EmptyString) as [Hblank | Hfull].
  - right. split; [now left |]. unfold Server.aggregate.
    destruct (negb (Server.truthy (Server.JString text)));
      [split; [reflexivity | now eexists] |].
    rewrite (proj2 (trim_blank_iff text) Hblank). split; [reflexivity | now eexists].
  - destruct (le_lt_dec (String.length text) 2000) as [Hlen | Hlen].
    + left. rewrite (accepted text results processingTime now Hfull Hlen). auto.
    + right. split; [now right |]. unfold Server.aggregate.
      rewrite (trim_full_truthy text Hfull). cbn [negb].
      destruct (String.length (Str.trim text) =? 0)%nat eqn:Hb.
      { apply trim_blank_iff in Hb. contradiction. }
      destruct (Nat.ltb_spec 2000 (String.length text)); [| lia].
      split; [reflexivity | now eexists].
Qed.

(** How the route answers a prompt that is no string. *)
Lemma other_prompt (prompt : Server.value)
    (results : Server.settled * Server.settled * Server.settled)
    (processingTime : Z) (now : string) :
  (forall text, prompt <> Server.JString text) ->
  Server.aggregate (Some prompt) results processingTime now
  = if Server.truthy prompt then Server.internalServerError
    else {| Server.status := 400;
            Server.json := Server.ErrorBody "Prompt is required and cannot be empty" |}.
Proof.
  intros Hother. unfold Server.aggregate.
  destruct prompt as [| | b | n | text | |]; try reflexivity.
  - destruct b; reflexivity.
  - destruct n as [s | s | | s m e]; reflexivity.
  - now destruct (Hother text).
Qed.

End Route.

(** X18. The route answers 200 exactly when the prompt of the request is a
    string with something else than white space in it and at most 2000
    characters.  It answers 500, through the error handler, exactly when
    the request has no body or its prompt is true without being a string
    (a number other than 0, [true], an array, an object).  In every other
    case (no prompt, [null], [false], 0, a string that is empty, blank or
    too long) it answers 400; only 200 carries a synthesis. *)
Theorem prompt_validation (requestBody : option Server.value)
    (results : Server.settled * Server.settled * Server.settled)
    (processingTime : Z) (now : string) :
  let reply := Server.aggregate requestBody results processingTime now in
  (Server.status reply = 200 <->
   exists text, requestBody = Some (Server.JString text)
                /\ Str.trim text <> EmptyString /\ String.length text <= 2000)
  /\ (Server.status reply = 500 <->
      requestBody = None
      \/ exists prompt, requestBody = Some prompt /\ Server.truthy prompt = true
                        /\ forall text, prompt <> Server.JString text)
  /\ (Server.status reply = 200 \/ Server.status reply = 400 \/ Server.status reply = 500)
  /\ (Server.status reply <> 200 -> exists error, Server.json reply = Server.ErrorBody error).
Proof.
  cbv zeta. destruct requestBody as [prompt |].
  - assert (Hkind : (exists text, prompt = Server.JString text)
                    \/ forall text, prompt <> Server.JString text).
    { destruct prompt; try (right; intros text; discriminate). left. now eexists. }
    destruct Hkind as [[text ->] | Hother].
    + destruct (string_prompt text results processingTime now)
        as [(Hfull & Hlen & Hstatus) | (Hbad & Hstatus & Herror)];
        rewrite !Hstatus.
      * split; [split; [intros _; now exists text | reflexivity] |].
        split; [| split; [now left | intros H; now destruct H]].
        split; [discriminate |].
        intros [H | (p & [= <-] & _ & Hnot)]; [discriminate | now destruct (Hnot text)].
      * split.
        { split; [discriminate |]. intros (t & [= <-] & Ht & Hl). destruct Hbad; [contradiction | lia]. }
        split; [| split; [right; now left | intros _; exact Herror]].
        split; [discriminate |].
        intros [H | (p & [= <-] & _ & Hnot)]; [discriminate | now destruct (Hnot text)].
    + rewrite (other_prompt prompt results processingTime now Hother).
      destruct (Server.truthy prompt) eqn:Htruthy; cbn [Server.status Server.json
        Server.internalServerError].
      * split.
        { split; [discriminate |]. intros (t & [= ->] & _). now destruct (Hother t). }
        split; [| split; [right; now right | intros _; now eexists]].
        split; [| reflexivity]. intros _. right. now exists prompt.
      * split.
        { split; [discriminate |]. intros (t & [= ->] & _). now destruct (Hother t). }
        split; [| split; [right; now left | intros _; now eexists]].
        split; [discriminate |].
        intros [H | (p & [= <-] & Ht & _)]; [discriminate | congruence].
  - cbn. split.
    { split; [discriminate |]. intros (t & H & _). discriminate. }
    split; [| split; [right; now right | intros _; now eexists]].
    split; [| reflexivity]. intros _. now left.
Qed.

(** X19. For an accepted prompt the reply names the three providers in the
    order openai, anthropic, google, [totalSources] is 3, and
    [successfulSources] is the number of calls that were fulfilled, which
    are the sources the synthesis lists, in that order. *)
Theorem sources_are_the_fulfilled_calls (text : string)
    (openai anthropic google : Server.settled) (processingTime : Z) (now : string) :
  Str.trim text <> EmptyString -> String.length text <= 2000 ->
  exists aggregate,
    Server.aggregate (Some (Server.JString text)) (openai, anthropic, google) processingTime now
    = {| Server.status := 200; Server.json := Server.AggregateBody aggregate |}
    /\ map fst (Server.individualResponses aggregate) = ["openai"; "anthropic"; "google"]
    /\ Server.totalSources (Server.metadata aggregate) = 3
    /\ Server.successfulSources (Server.metadata aggregate)
       = List.length (filter Server.isFulfilled [openai; anthropic; google])
    /\ sourcesUsed (Server.synthesis aggregate)
       = map snd (filter (fun call => Server.isFulfilled (fst call))
                         [(openai, "Openai"); (anthropic, "Anthropic"); (google, "Google")]).
Proof.
  intros Htrim Hlen. eexists. split; [apply accepted; assumption |].
  cbn [Server.individualResponses Server.metadata Server.totalSources
       Server.successfulSources Server.synthesis].
  rewrite sourcesUsed_valid.
  destruct openai, anthropic, google; repeat split.
Qed.

Lemma sources_are_the_fulfilled_calls_witness :
  exists aggregate,
    Server.aggregate (Some (Server.JString "What is AI?"))
      (Server.Fulfilled "An answer.", Server.Rejected (Some "Anthropic timeout"),
       Server.Fulfilled "Another answer.") 15012 "2025-01-01T00:00:00.000Z"
    = {| Server.status := 200; Server.json := Server.AggregateBody aggregate |}
    /\ Server.successfulSources (Server.metadata aggregate) = 2
    /\ sourcesUsed (Server.synthesis aggregate) = ["Openai"; "Google"].
Proof.
  destruct (sources_are_the_fulfilled_calls "What is AI?"
              (Server.Fulfilled "An answer.") (Server.Rejected (Some "Anthropic timeout"))
              (Server.Fulfilled "Another answer.") 15012 "2025-01-01T00:00:00.000Z")
    as (aggregate & Hreply & _ & _ & Hcount & Hsources).
  - discriminate.
  - cbn. lia.
  - exists aggregate. split; [exact Hreply |]. split; assumption.
Defined.

(** X20. When the three calls of an accepted prompt are all rejected, the
    route still answers 200: the synthesis is the error result with no
    source, and each entry carries the message of its rejection, or the
    default message of its provider when there is none. *)
Theorem total_failure_is_answered (text : string) (m0 m1 m2 : option string)
    (processingTime : Z) (now : string) :
  Str.trim text <> EmptyString -> String.length text <= 2000 ->
  exists aggregate,
    Server.aggregate (Some (Server.JString text))
      (Server.Rejected m0, Server.Rejected m1, Server.Rejected m2) processingTime now
    = {| Server.status := 200; Server.json := Server.AggregateBody aggregate |}
    /\ approach (Server.synthesis aggregate) = "error"
    /\ confidenceScore (Server.synthesis aggregate) = Num.ofZ 0
    /\ sourcesUsed (Server.synthesis aggregate) = []
    /\ Server.successfulSources (Server.metadata aggregate) = 0
    /\ Server.individualResponses aggregate
       = [("openai", Failure true (Server.messageOr m0 "OpenAI call failed") "OpenAI");
          ("anthropic", Failure true (Server.messageOr m1 "Anthropic call failed") "Anthropic");
          ("google", Failure true (Server.messageOr m2 "Google AI call failed") "Google")].
Proof.
  intros Htrim Hlen. eexists. split; [apply accepted; assumption |].
  repeat split.
Qed.

Lemma total_failure_is_answered_witness :
  exists aggregate,
    Server.aggregate (Some (Server.JString "What is AI?"))
      (Server.Rejected (Some "OpenAI timeout"), Server.Rejected None,
       Server.Rejected (Some EmptyString)) 15003 "2025-01-01T00:00:00.000Z"
    = {| Server.status := 200; Server.json := Server.AggregateBody aggregate |}
    /\ approach (Server.synthesis aggregate) = "error"
    /\ Server.individualResponses aggregate
       = [("openai", Failure true "OpenAI timeout" "OpenAI");
          ("anthropic", Failure true "Anthropic call failed" "Anthropic");
          ("google", Failure true "Google AI call failed" "Google")].
Proof.
  destruct (total_failure_is_answered "What is AI?" (Some "OpenAI timeout") None
              (Some EmptyString) 15003 "2025-01-01T00:00:00.000Z")
    as (aggregate & Hreply & Happroach & _ & _ & _ & Hentries).
  - discriminate.
  - cbn. lia.
  - exists aggregate. split; [exact Hreply |]. split; assumption.
Defined.

(** ** The LangChain services *)

Section LangChainFacts.

Lemma validEntries_length (responses : list (string * option string)) :
  List.length (LangChain.validEntries responses)
  = List.length (filter (fun entry => LangChain.isValid (snd entry)) responses).
Proof.
  induction responses as [| [key value] responses IH]; [reflexivity |].
  unfold LangChain.validEntries in *. cbn [flat_map filter snd fst].
  rewrite length_app, IH.
  destruct value as [text |]; [| reflexivity].
  destruct (LangChain.isValid (Some text)); reflexivity.
Qed.

Lemma validCount_counts (responses : list (string * option string)) :
  LangChain.validCount (LangChain.calculateSimilarity responses)
  = List.length (LangChain.validEntries responses).
Proof.
  unfold LangChain.calculateSimilarity. rewrite length_map.
  destruct (List.length (LangChain.validEntries responses) <? 2)%nat; reflexivity.
Qed.

Lemma fallback_validModels (responses : list (string * option string))
    (similarity : LangChain.Similarity) :
  LangChain.validModels
    (LangChain.details (LangChain.createFallbackSynthesis responses similarity))
  = List.length (LangChain.validEntries responses).
Proof.
  unfold LangChain.createFallbackSynthesis.
  destruct (Nat.eqb_spec (List.length (LangChain.validEntries responses)) 0) as [H0 | H0];
    cbn [LangChain.details LangChain.validModels]; congruence.
Qed.

Lemma sourcesUsedOf_length (responses : LangChain.Responses) :
  List.length (LangChain.sourcesUsedOf responses)
  = List.length (LangChain.validEntries (LangChain.entries responses)).
Proof.
  unfold LangChain.sourcesUsedOf. now rewrite length_map, validEntries_length.
Qed.

Lemma low_score_few_valid (responses : list (string * option string)) :
  List.length (LangChain.validEntries responses) < 2 ->
  LangChain.calculateSimilarity responses
  = {| LangChain.score := Num.ofZ 0;
       LangChain.validCount := List.length (LangChain.validEntries responses) |}.
Proof.
  intros Hfew. unfold LangChain.calculateSimilarity. rewrite length_map.
  destruct (Nat.ltb_spec (List.length (LangChain.validEntries responses)) 2);
    [reflexivity | lia].
Qed.

End LangChainFacts.

(** X21. A text that [queryOpenAI] or [queryGoogle] returns without the
    mark "mock response" in it is what the model itself answered: every
    fallback text of these two carries the mark. *)
Theorem unmarked_text_is_the_models (chain : option LangChain.chain) (prompt : string) :
  (Str.includes (LangChain.queryOpenAI chain prompt) "mock response" = false ->
   exists invoke, chain = Some invoke
                  /\ invoke prompt = LangChain.Responded (LangChain.queryOpenAI chain prompt))
  /\ (Str.includes (LangChain.queryGoogle chain prompt) "mock response" = false ->
      exists invoke, chain = Some invoke
                     /\ invoke prompt
                        = LangChain.Responded (LangChain.queryGoogle chain prompt)).
Proof.
  split.
  - unfold LangChain.queryOpenAI. destruct chain as [invoke |].
    + destruct (invoke prompt) as [answer | message] eqn:Hcall.
      * intros _. now exists invoke.
      * destruct (Str.includes message "insufficient_quota");
          [| destruct (Str.includes message "Incorrect API key")];
          intros Hmark; vm_compute in Hmark; discriminate.
    + intros Hmark. vm_compute in Hmark. discriminate.
  - unfold LangChain.queryGoogle. destruct chain as [invoke |].
    + destruct (invoke prompt) as [answer | message] eqn:Hcall.
      * intros _. now exists invoke.
      * destruct (Str.includes message "API key not valid");
          intros Hmark; vm_compute in Hmark; discriminate.
    + intros Hmark. vm_compute in Hmark. discriminate.
Qed.

(** X22. The fallback text of [queryAnthropic] for an error that is neither
    a credit nor a key error does not carry the mark "mock response": when
    the parallel run throws and the Anthropic chain fails that way, the
    fallback passes the filter of the synthesis and "anthropic" is listed
    among the sources used. *)
Theorem anthropic_fallback_passes_the_filter (chains : LangChain.Chains)
    (parallelChain : string -> LangChain.parallelInvocation)
    (invoke : LangChain.chain) (prompt message : string) :
  LangChain.anthropicChain chains = Some invoke ->
  parallelChain prompt = LangChain.ParallelThrew ->
  invoke prompt = LangChain.Threw message ->
  Str.includes message "credit balance" = false ->
  Str.includes message "Invalid API Key" = false ->
  let responses := LangChain.queryAllModels chains parallelChain prompt in
  LangChain.anthropic responses
  = Some "Anthropic service temporarily unavailable. This represents Claude's typical structured approach."
  /\ LangChain.isValid (LangChain.anthropic responses) = true
  /\ In "anthropic" (LangChain.sourcesUsedOf responses).
Proof.
  intros Hchain Hparallel Hcall Hcredit Hkey responses.
  assert (Hanthropic : LangChain.anthropic responses
            = Some "Anthropic service temporarily unavailable. This represents Claude's typical structured approach.").
  { subst responses. unfold LangChain.queryAllModels.
    rewrite Hchain, Hparallel. cbn [LangChain.isSome orb].
    rewrite orb_true_r. cbn [orb LangChain.queryEach LangChain.anthropic].
    unfold LangChain.queryAnthropic. rewrite Hchain, Hcall, Hcredit, Hkey. reflexivity. }
  split; [exact Hanthropic |].
  assert (Hvalid : LangChain.isValid (LangChain.anthropic responses) = true).
  { rewrite Hanthropic. vm_compute. reflexivity. }
  split; [exact Hvalid |].
  unfold LangChain.sourcesUsedOf, LangChain.entries.
  apply in_map_iff. exists ("anthropic", LangChain.anthropic responses).
  split; [reflexivity |]. apply filter_In. split; [| exact Hvalid].
  right. left. reflexivity.
Qed.

Lemma anthropic_fallback_passes_the_filter_witness :
  In "anthropic"
     (LangChain.sourcesUsedOf
        (LangChain.queryAllModels
           {| LangChain.openAIChain := None;
              LangChain.anthropicChain := Some (fun _ => LangChain.Threw "socket hang up");
              LangChain.googleAIChain := None |}
           (fun _ => LangChain.ParallelThrew) "What is AI?")).
Proof.
  apply (anthropic_fallback_passes_the_filter _ _
           (fun _ => LangChain.Threw "socket hang up") _ "socket hang up");
    reflexivity.
Defined.

(** X23. With no model configured, whatever the prompt, the three answers
    are fallback texts, none counts as valid, no source is listed and the
    synthesis is the "Service Unavailable" result with score 0. *)
Theorem no_model_configured (parallelChain : string -> LangChain.parallelInvocation)
    (chain : option LangChain.synthesisChain) (prompt query : string) :
  let responses :=
    LangChain.queryAllModels
      {| LangChain.openAIChain := None; LangChain.anthropicChain := None;
         LangChain.googleAIChain := None |} parallelChain prompt in
  LangChain.sourcesUsedOf responses = []
  /\ LangChain.approach (LangChain.synthesizeResponses chain query responses)
     = "Service Unavailable"
  /\ LangChain.confidence (LangChain.synthesizeResponses chain query responses) = "low"
  /\ LangChain.confidenceScore (LangChain.synthesizeResponses chain query responses)
     = Num.ofZ 0
  /\ LangChain.validModels
       (LangChain.details (LangChain.synthesizeResponses chain query responses)) = 0.
Proof.
  cbv zeta. destruct chain as [invoke |]; repeat split; vm_compute; reflexivity.
Qed.

(** X24. The number of valid models the synthesis reports, which the server
    gives as [successfulSources], is the number of sources the server
    lists, whether the synthesis chain is absent, answers or throws. *)
Theorem validModels_counts_sources (chain : option LangChain.synthesisChain)
    (query : string) (responses : LangChain.Responses) :
  LangChain.validModels
    (LangChain.details (LangChain.synthesizeResponses chain query responses))
  = List.length (LangChain.sourcesUsedOf responses).
Proof.
  rewrite sourcesUsedOf_length. unfold LangChain.synthesizeResponses.
  destruct chain as [invoke |]; [| apply fallback_validModels].
  destruct (2 <=? _)%nat; [| apply fallback_validModels].
  destruct (invoke _ _ _ _); [| apply fallback_validModels].
  cbn [LangChain.details LangChain.validModels]. apply validCount_counts.
Qed.

(** X25. With fewer than two valid responses the synthesis chain is not
    consulted: the result is the one without a chain, with score 0 and
    confidence "low". *)
Theorem few_valid_responses_skip_the_chain (chain : option LangChain.synthesisChain)
    (query : string) (responses : LangChain.Responses) :
  List.length (LangChain.sourcesUsedOf responses) < 2 ->
  LangChain.synthesizeResponses chain query responses
  = LangChain.synthesizeResponses None query responses
  /\ LangChain.confidenceScore (LangChain.synthesizeResponses chain query responses)
     = Num.ofZ 0
  /\ LangChain.confidence (LangChain.synthesizeResponses chain query responses) = "low".
Proof.
  rewrite sourcesUsedOf_length. intros Hfew.
  assert (Hnone : LangChain.synthesizeResponses chain query responses
                  = LangChain.synthesizeResponses None query responses).
  { unfold LangChain.synthesizeResponses. destruct chain as [invoke |]; [| reflexivity].
    rewrite validCount_counts.
    destruct (Nat.leb_spec 2 (List.length
                (LangChain.validEntries (LangChain.entries responses)))); [lia | reflexivity]. }
  split; [exact Hnone |]. rewrite Hnone.
  unfold LangChain.synthesizeResponses.
  rewrite (low_score_few_valid _ Hfew). unfold LangChain.createFallbackSynthesis.
  destruct (List.length (LangChain.validEntries (LangChain.entries responses)) =? 0)%nat;
    split; reflexivity.
Qed.

Lemma few_valid_responses_skip_the_chain_witness :
  let responses := {| LangChain.openai := Some "A real answer.";
                      LangChain.anthropic := None;
                      LangChain.google := Some "This is a mock response." |} in
  List.length (LangChain.sourcesUsedOf responses) < 2
  /\ LangChain.confidenceScore
       (LangChain.synthesizeResponses (Some (fun _ _ _ _ => LangChain.SynthesisThrew))
                                      "q" responses) = Num.ofZ 0.
Proof.
  intros responses.
  assert (Hfew : List.length (LangChain.sourcesUsedOf responses) < 2)
    by (vm_compute; lia).
  split; [exact Hfew |].
  apply (few_valid_responses_skip_the_chain _ "q" responses Hfew).
Defined.

(** X26. A synthesis chain that throws is absorbed: with two valid
    responses or more the result is the direct listing of the valid
    responses, with score 0 and confidence "low", however much they
    agree. *)
Theorem failing_chain_is_absorbed (invoke : LangChain.synthesisChain)
    (query : string) (responses : LangChain.Responses) :
  2 <= List.length (LangChain.sourcesUsedOf responses) ->
  invoke query (LangChain.orUnavailable (LangChain.openai responses))
         (LangChain.orUnavailable (LangChain.anthropic responses))
         (LangChain.orUnavailable (LangChain.google responses))
  = LangChain.SynthesisThrew ->
  let result := LangChain.synthesizeResponses (Some invoke) query responses in
  LangChain.approach result = "Direct Model Responses"
  /\ LangChain.confidenceScore result = Num.ofZ 0
  /\ LangChain.confidence result = "low"
  /\ LangChain.modelContributions (LangChain.details result)
     = LangChain.validEntries (LangChain.entries responses).
Proof.
  rewrite sourcesUsedOf_length. intros Hvalid Hthrew. cbv zeta.
  unfold LangChain.synthesizeResponses. rewrite validCount_counts, Hthrew.
  destruct (Nat.leb_spec 2 (List.length
              (LangChain.validEntries (LangChain.entries responses)))); [| lia].
  unfold LangChain.createFallbackSynthesis.
  destruct (Nat.eqb_spec (List.length
              (LangChain.validEntries (LangChain.entries responses))) 0); [lia |].
  repeat split.
Qed.

Lemma failing_chain_is_absorbed_witness :
  let responses := {| LangChain.openai := Some "alpha beta gamma delta";
                      LangChain.anthropic := Some "alpha beta gamma delta";
                      LangChain.google := None |} in
  2 <= List.length (LangChain.sourcesUsedOf responses)
  /\ LangChain.confidence
       (LangChain.synthesizeResponses (Some (fun _ _ _ _ => LangChain.SynthesisThrew))
                                      "q" responses) = "low".
Proof.
  intros responses.
  assert (Hvalid : 2 <= List.length (LangChain.sourcesUsedOf responses))
    by (vm_compute; lia).
  split; [exact Hvalid |].
  apply (failing_chain_is_absorbed (fun _ _ _ _ => LangChain.SynthesisThrew) "q"
           responses Hvalid eq_refl).
Defined.

(** X27. In the comparative answer a response without a sentence (nothing
    of more than 10 characters between the marks) gets its heading and
    nothing under it. *)
Theorem section_without_sentence_is_empty (response : Valid.t) :
  splitIntoSentences (Valid.text response) = [] ->
  approachSection response
  = "**" ++ Valid.source response ++ " approach:**" ++ Str.newline ++ Str.newline.
Proof.
  intros Hnone. unfold approachSection, extractKeyPoints. rewrite Hnone. reflexivity.
Qed.

Lemma section_without_sentence_is_empty_witness :
  splitIntoSentences "42" = []
  /\ approachSection (Valid.make "Openai" "42" 2)
     = "**Openai approach:**" ++ Str.newline ++ Str.newline.
Proof.
  split; [reflexivity |].
  apply (section_without_sentence_is_empty (Valid.make "Openai" "42" 2)). reflexivity.
Defined.
